(** * ckmt-python: request/response pipeline of the CKMT SDK

    A shallow embedding of [ckmt/exceptions.py], [ckmt/client.py] and
    [ckmt/async_client.py].  Python values that the SDK only forwards are
    kept as data ([pyval], [json]); mutable objects (sessions, the async
    client's [session] attribute) live in an explicit store that is threaded
    through a small state-and-exception monad. *)

From Stdlib Require Import ZArith String Ascii List Bool Lia.
From stdpp Require Import base option list strings gmap.
Import ListNotations.

Set Warnings "-register-all".
Local Open Scope string_scope.
Local Open Scope Z_scope.

(** ** Python values and idioms *)

(** The values that reach the facade as keyword arguments. *)
Inductive pyval : Type :=
  | PyNone
  | PyInt (z : Z)
  | PyStr (s : string).

(** [v is not None]. *)
Definition is_not_None (v : pyval) : bool :=
  match v with
  | PyNone => false
  | _ => true
  end.

(** A dict literal, in insertion order. *)
Abbreviation pydict := (list (string * pyval)).

(** [{k: v for k, v in params.items() if v is not None}]. *)
Definition drop_None (params : pydict) : pydict :=
  filter (λ kv, is_not_None kv.2 = true) params.

(** [d.get(k)] on an insertion-ordered dict. *)
Fixpoint dict_get (k : string) (d : pydict) : option pyval :=
  match d with
  | [] => None
  | (k', v) :: d' => if String.eqb k k' then Some v else dict_get k d'
  end.

Definition keys (d : pydict) : list string := map fst d.

(** Truthiness of an [Optional[str]]: [None] and the empty string are falsy. *)
Definition truthy (s : option string) : bool :=
  match s with
  | None => false
  | Some "" => false
  | Some _ => true
  end.

(** [a or b] on [Optional[str]]. *)
Definition py_or (a b : option string) : option string :=
  if truthy a then a else b.

(** [a or b] where [b] is a string: the result is a string. *)
Definition py_or_str (a : option string) (b : string) : string :=
  match a with
  | Some s => if truthy a then s else b
  | None => b
  end.

(** [os.getenv(name)] and [os.getenv(name, default)] over an environment. *)
Abbreviation environ := (gmap string string).

Definition getenv (env : environ) (name : string) : option string :=
  env !! name.

Definition getenv_default (env : environ) (name default : string) : string :=
  match env !! name with
  | Some v => v
  | None => default
  end.

(** [s.rstrip(c)] for a one-character set: every trailing [c] is removed. *)
Fixpoint rstrip (c : ascii) (s : string) : string :=
  match s with
  | EmptyString => EmptyString
  | String a t =>
      match rstrip c t with
      | EmptyString => if Ascii.eqb a c then EmptyString else String a EmptyString
      | t' => String a t'
      end
  end.

Definition slash : ascii := "/"%char.

(** [n] copies of a character, as a string. *)
Fixpoint replicate_char (n : nat) (c : ascii) : string :=
  match n with
  | O => EmptyString
  | S n' => String c (replicate_char n' c)
  end.

(** The last character of a string, when there is one. *)
Fixpoint last_char (s : string) : option ascii :=
  match s with
  | EmptyString => None
  | String a EmptyString => Some a
  | String _ t => last_char t
  end.

(** ** Exceptions *)

(** The exception classes the two clients raise, catch or let through:
    the builtins, the SDK's own hierarchy ([ckmt/exceptions.py]) and the part
    of the hierarchies of [requests], [aiohttp], [asyncio] and [json] that the
    [except] clauses of [_request] are matched against. *)
Inductive exc_class : Type :=
  | Exception
  | ValueError
  | RuntimeError
  | AttributeError
  | OSError
  | json_JSONDecodeError
  | asyncio_TimeoutError
  | CKMTError
  | APIError
  | AuthenticationError
  | RateLimitError
  | NotFoundError
  | ValidationError
  | requests_RequestException
  | requests_ConnectionError
  | requests_Timeout
  | requests_InvalidJSONError
  | requests_JSONDecodeError
  | aiohttp_ClientError
  | aiohttp_ClientConnectionError
  | aiohttp_ClientOSError
  | aiohttp_ClientConnectorError
  | aiohttp_ServerConnectionError
  | aiohttp_ServerTimeoutError
  | aiohttp_ClientResponseError
  | aiohttp_ContentTypeError.

#[global] Instance exc_class_eq_dec : EqDecision exc_class.
Proof. solve_decision. Defined.

(** The direct base classes of each class, as the class statements give
    them: [ckmt/exceptions.py] for the SDK's errors;
    [requests/exceptions.py] ([RequestException(IOError)],
    [JSONDecodeError(InvalidJSONError, json.JSONDecodeError)]);
    [aiohttp/client_exceptions.py] ([ClientError(Exception)],
    [ClientOSError(ClientConnectionError, OSError)],
    [ServerTimeoutError(ServerConnectionError, asyncio.TimeoutError)]).
    [asyncio.TimeoutError] derives from [Exception] (from [OSError], as the
    builtin [TimeoutError], since Python 3.11); in neither case from a class
    of [aiohttp]. *)
Definition bases (c : exc_class) : list exc_class :=
  match c with
  | Exception => []
  | ValueError | RuntimeError | AttributeError | OSError
  | asyncio_TimeoutError => [Exception]
  | json_JSONDecodeError => [ValueError]
  | CKMTError => [Exception]
  | APIError => [CKMTError]
  | AuthenticationError | RateLimitError | NotFoundError | ValidationError =>
      [APIError]
  | requests_RequestException => [OSError]
  | requests_ConnectionError | requests_Timeout | requests_InvalidJSONError =>
      [requests_RequestException]
  | requests_JSONDecodeError =>
      [requests_InvalidJSONError; json_JSONDecodeError]
  | aiohttp_ClientError => [Exception]
  | aiohttp_ClientConnectionError | aiohttp_ClientResponseError =>
      [aiohttp_ClientError]
  | aiohttp_ClientOSError => [aiohttp_ClientConnectionError; OSError]
  | aiohttp_ClientConnectorError => [aiohttp_ClientOSError]
  | aiohttp_ServerConnectionError => [aiohttp_ClientConnectionError]
  | aiohttp_ServerTimeoutError =>
      [aiohttp_ServerConnectionError; asyncio_TimeoutError]
  | aiohttp_ContentTypeError => [aiohttp_ClientResponseError]
  end.

(** [issubclass(c, d)], by following [bases] at most [fuel] levels up. *)
Fixpoint issubclass_upto (fuel : nat) (c d : exc_class) : bool :=
  bool_decide (c = d) ||
  match fuel with
  | O => false
  | S fuel' => existsb (λ b, issubclass_upto fuel' b d) (bases c)
  end.

(** No class is more than five steps below [Exception]. *)
Definition issubclass (c d : exc_class) : bool := issubclass_upto 5 c d.

(** An exception object: its class, [str(e)], and the two attributes that
    [APIError.__init__] sets (absent, here [None], on every other class). *)
Record exc : Type := mk_exc {
  exc_type : exc_class;
  exc_str : string;
  status_code : option Z;
  response : option string
}.

Definition isinstance (e : exc) (c : exc_class) : bool :=
  issubclass (exc_type e) c.
Arguments isinstance : simpl never.

(** [cls(message, status_code=..., response=...)] for [APIError] and its
    subclasses, which inherit [APIError.__init__]. *)
Definition new_APIError (cls : exc_class) (message : string)
    (status_code : option Z) (response : option string) : exc :=
  mk_exc cls message status_code response.

(** [ValueError(message)]. *)
Definition new_ValueError (message : string) : exc :=
  mk_exc ValueError message None None.

(** The Classified Errors of the specification: instances of [APIError]. *)
Definition classified (e : exc) : bool := isinstance e APIError.

(** ** Results: a value or a raised exception, over an explicit store *)

Inductive result (A : Type) : Type :=
  | Return (a : A)
  | Raise (e : exc).
Arguments Return {A} a.
Arguments Raise {A} e.

(** A computation over a store [S]; the store survives a raised exception,
    as the attributes of a Python object do. *)
Definition M (S A : Type) : Type := S → result A * S.

Definition ret {S A} (a : A) : M S A := λ s, (Return a, s).

Definition raise {S A} (e : exc) : M S A := λ s, (Raise e, s).

Definition bind {S A B} (m : M S A) (k : A → M S B) : M S B :=
  λ s, match m s with
       | (Return a, s') => k a s'
       | (Raise e, s') => (Raise e, s')
       end.

Definition get {S} : M S S := λ s, (Return s, s).

Definition modify {S} (f : S → S) : M S unit := λ s, (Return tt, f s).

(** The outcome of a library call that was already decided. *)
Definition lift {S A} (r : result A) : M S A := λ s, (r, s).

(** [try: body  except cls as e: handler(e)]. *)
Definition try_except {S A} (body : M S A) (cls : exc_class)
    (handler : exc → M S A) : M S A :=
  λ s, match body s with
       | (Raise e, s') => if isinstance e cls then handler e s' else (Raise e, s')
       | r => r
       end.

Notation "x <- c1 ;; c2" := (bind c1 (λ x, c2))
  (at level 100, c1 at next level, right associativity).
Notation "c1 ;;; c2" := (bind c1 (λ _, c2))
  (at level 100, right associativity).

(** ** The HTTP layer as the clients see it *)

(** Decoded JSON, returned to the caller as it is. *)
Inductive json_value : Type :=
  | JNull
  | JBool (b : bool)
  | JInt (z : Z)
  | JStr (s : string)
  | JList (l : list json_value)
  | JDict (d : list (string * json_value)).

(** The keyword arguments of [session.request(...)].  The blocking client
    passes [timeout=self.timeout] with each call; the suspending one sets the
    timeout on the session and passes none. *)
Record request : Type := mk_request {
  req_method : string;
  req_url : string;
  req_params : option pydict;
  req_json : option json_value;
  req_headers : option (list (string * string));
  req_timeout : option Z
}.

(** A received response: the status, the body text, and what the library's
    [response.json()] does on it. *)
Record http_response : Type := mk_response {
  resp_status : Z;
  resp_text : string;
  resp_json : result json_value
}.

(** A transport session ([requests.Session] or [aiohttp.ClientSession]):
    the headers the client sets on it, its timeout when it has one, and
    whether [close()] was called on it. *)
Record session_obj : Type := mk_session {
  s_headers : list (string * string);
  s_timeout : option Z;
  s_closed : bool
}.

(** A call of [session.request]: on which session, whether that session was
    already closed (the library then refuses the call), and the request. *)
Record event : Type := Sent {
  ev_session : nat;
  ev_closed : bool;
  ev_request : request
}.

(** The store: the session objects by reference, and the calls of
    [session.request] so far (oldest first). *)
Record world : Type := mk_world {
  w_sessions : gmap nat session_obj;
  w_trace : list event
}.

Definition empty_world : world := mk_world ∅ [].

(** What the remote side and the HTTP library answer to a request sent
    through a session: a response, or an exception of the library. *)
Definition transport : Type := session_obj → request → result http_response.

(** Allocating a session object: a reference that is not in use. *)
Definition new_session (s : session_obj) : M world nat :=
  λ w, let sid := fresh (dom (w_sessions w)) in
       (Return sid, mk_world (<[sid := s]> (w_sessions w)) (w_trace w)).

(** The session object behind a reference. *)
Definition deref (w : world) (sid : nat) : session_obj :=
  default (mk_session [] None false) (w_sessions w !! sid).

(** [session.request(...)]: the request goes out through the session the
    reference names and the transport decides the outcome. *)
Definition session_request (net : transport) (sid : nat) (rq : request)
    : M world http_response :=
  λ w, let s := deref w sid in
       (net s rq, mk_world (w_sessions w) (w_trace w ++ [Sent sid (s_closed s) rq])).

(** [session.close()]. *)
Definition session_close (sid : nat) : M world unit :=
  modify (λ w, mk_world
    (alter (λ s, mk_session (s_headers s) (s_timeout s) true) sid (w_sessions w))
    (w_trace w)).

(** The headers both clients put on their session. *)
Definition client_headers (api_key : string) : list (string * string) :=
  [("Authorization", "Bearer " ++ api_key); ("User-Agent", "ckmt-sdk/1.0.0")].

Definition api_key_required : string :=
  "API key is required. Set CKMT_API_KEY or pass api_key parameter.".

Definition default_base_url : string := "https://api.ckmt.io".

(** ** [ckmt/client.py]: the blocking client *)

Module CKMT.

Record client : Type := mk_client {
  api_key : string;
  base_url : string;
  timeout : Z;
  session : nat
}.

(** [CKMT.__init__(api_key=None, base_url=None, timeout=30)].  Past the
    credentials check [self.api_key] is truthy, hence a string. *)
Definition __init__ (env : environ) (api_key base_url : option string)
    (timeout : Z) : M world client :=
  let self_api_key := py_or api_key (getenv env "CKMT_API_KEY") in
  if negb (truthy self_api_key) then
    raise (new_ValueError api_key_required)
  else
    let key := default "" self_api_key in
    let self_base_url :=
      rstrip slash
        (py_or_str base_url (getenv_default env "CKMT_BASE_URL" default_base_url)) in
    sid <- new_session (mk_session (client_headers key) None false) ;;
    ret (mk_client key self_base_url timeout sid).

Section WithTransport.

(** The answers of [requests] and the remote service. *)
Variable net : transport.

(** [CKMT._request(method, endpoint, params=None, json=None, headers=None)]. *)
Definition _request (self : client) (method endpoint : string)
    (params : option pydict) (json : option json_value)
    (headers : option (list (string * string))) : M world json_value :=
  let url := base_url self ++ endpoint in
  try_except
    (response <- session_request net (session self)
                   (mk_request method url params json headers (Some (timeout self))) ;;
     if (resp_status response =? 401)%Z then
       raise (new_APIError AuthenticationError "Invalid API key"
                (Some 401) (Some (resp_text response)))
     else if (resp_status response =? 404)%Z then
       raise (new_APIError NotFoundError "Resource not found"
                (Some 404) (Some (resp_text response)))
     else if (resp_status response =? 429)%Z then
       raise (new_APIError RateLimitError "Rate limit exceeded"
                (Some 429) (Some (resp_text response)))
     else if (resp_status response =? 422)%Z then
       raise (new_APIError ValidationError "Validation error"
                (Some 422) (Some (resp_text response)))
     else if (resp_status response >=? 400)%Z then
       raise (new_APIError APIError ("API error: " ++ resp_text response)
                (Some (resp_status response)) (Some (resp_text response)))
     else
       lift (resp_json response))
    requests_RequestException
    (λ e, raise (new_APIError APIError ("Request failed: " ++ exc_str e) None None)).

(** The dict literal of [search], before the unset entries are dropped. *)
Definition search_dict
    (query port service product version country asn os vuln http_title
     http_status technology page size : pyval) : pydict :=
  [("query", query); ("port", port); ("service", service);
   ("product", product); ("version", version); ("country", country);
   ("asn", asn); ("os", os); ("vuln", vuln); ("http_title", http_title);
   ("http_status", http_status); ("technology", technology);
   ("page", page); ("size", size)].

Definition search_params
    (query port service product version country asn os vuln http_title
     http_status technology page size : pyval) : pydict :=
  drop_None (search_dict query port service product version country asn os
               vuln http_title http_status technology page size).

(** [CKMT.search(...)]; the defaults are [page=1] and [size=10]. *)
Definition search
    (self : client)
    (query port service product version country asn os vuln http_title
     http_status technology page size : pyval) : M world json_value :=
  _request self "GET" "/v1/search"
    (Some (search_params query port service product version country asn os
             vuln http_title http_status technology page size))
    None None.

(** [CKMT.host(ip)]. *)
Definition host (self : client) (ip : string) : M world json_value :=
  _request self "GET" ("/v1/search/host/" ++ ip) None None None.

Definition count_dict (query port country : pyval) : pydict :=
  [("query", query); ("port", port); ("country", country)].

Definition count_params (query port country : pyval) : pydict :=
  drop_None (count_dict query port country).

(** [CKMT.count(query=None, port=None, country=None)]. *)
Definition count (self : client) (query port country : pyval)
    : M world json_value :=
  _request self "GET" "/v1/search/count"
    (Some (count_params query port country)) None None.

Definition facets_dict (query facets : pyval) : pydict :=
  [("query", query); ("facets", facets)].

Definition facets_params (query facets : pyval) : pydict :=
  drop_None (facets_dict query facets).

(** [CKMT.facets(query=None, facets="country,port,service,technology")]. *)
Definition facets (self : client) (query facets : pyval)
    : M world json_value :=
  _request self "GET" "/v1/search/facets"
    (Some (facets_params query facets)) None None.

Definition ports_dict (query size : pyval) : pydict :=
  [("query", query); ("size", size)].

Definition ports_params (query size : pyval) : pydict :=
  drop_None (ports_dict query size).

(** [CKMT.ports(query=None, size=100)]. *)
Definition ports (self : client) (query size : pyval) : M world json_value :=
  _request self "GET" "/v1/search/ports"
    (Some (ports_params query size)) None None.

(** [CKMT.services()] and [CKMT.stats()]. *)
Definition services (self : client) : M world json_value :=
  _request self "GET" "/v1/search/services" None None None.

Definition stats (self : client) : M world json_value :=
  _request self "GET" "/v1/search/stats" None None None.

End WithTransport.

End CKMT.

(** ** [ckmt/async_client.py]: the suspending client *)

Module AsyncCKMT.

(** [self.session] starts as [None] and is assigned later. *)
Record client : Type := mk_client {
  api_key : string;
  base_url : string;
  timeout : Z;
  session : option nat
}.

(** The client object is mutable: it is part of the store. *)
Record state : Type := mk_state {
  self : client;
  heap : world
}.

(** A computation on the session store, run on the store of a client. *)
Definition in_world {A} (m : M world A) : M state A :=
  λ st, let (r, w) := m (heap st) in (r, mk_state (self st) w).

(** [self.session = v]. *)
Definition set_session (v : option nat) : M state unit :=
  modify (λ st,
    mk_state (mk_client (api_key (self st)) (base_url (self st))
                (timeout (self st)) v)
             (heap st)).

(** [AsyncCKMT.__init__(api_key=None, base_url=None, timeout=30)]: no
    session is created. *)
Definition __init__ (env : environ) (api_key base_url : option string)
    (timeout : Z) : M world client :=
  let self_api_key := py_or api_key (getenv env "CKMT_API_KEY") in
  if negb (truthy self_api_key) then
    raise (new_ValueError api_key_required)
  else
    let key := default "" self_api_key in
    let self_base_url :=
      rstrip slash
        (py_or_str base_url (getenv_default env "CKMT_BASE_URL" default_base_url)) in
    ret (mk_client key self_base_url timeout None).

(** [aiohttp.ClientSession(headers=..., timeout=self.timeout)]. *)
Definition new_client_session : M state nat :=
  st <- get ;;
  in_world (new_session
              (mk_session (client_headers (api_key (self st)))
                          (Some (timeout (self st))) false)).

(** [async def __aenter__(self)]. *)
Definition __aenter__ : M state unit :=
  sid <- new_client_session ;;
  set_session (Some sid).

(** [async def __aexit__(self, exc_type, exc_val, exc_tb)]. *)
Definition __aexit__ : M state unit :=
  st <- get ;;
  match session (self st) with
  | Some sid => in_world (session_close sid)
  | None => ret tt
  end.

(** [async def _ensure_session(self)]. *)
Definition _ensure_session : M state unit :=
  st <- get ;;
  match session (self st) with
  | None =>
      sid <- new_client_session ;;
      set_session (Some sid)
  | Some _ => ret tt
  end.

(** [async def close(self)]. *)
Definition close : M state unit :=
  st <- get ;;
  match session (self st) with
  | Some sid => in_world (session_close sid)
  | None => ret tt
  end.

Section WithTransport.

(** The answers of [aiohttp] and the remote service; a failure while the
    body text is read is a failure of the exchange. *)
Variable net : transport.

(** [self.session.request(...)]; on [None] the attribute lookup fails. *)
Definition self_session_request (rq : request) : M state http_response :=
  st <- get ;;
  match session (self st) with
  | Some sid => in_world (session_request net sid rq)
  | None =>
      raise (mk_exc AttributeError
               "'NoneType' object has no attribute 'request'" None None)
  end.

(** [AsyncCKMT._request(method, endpoint, params=None, json=None, headers=None)]. *)
Definition _request (method endpoint : string)
    (params : option pydict) (json : option json_value)
    (headers : option (list (string * string))) : M state json_value :=
  _ensure_session ;;;
  st <- get ;;
  let url := base_url (self st) ++ endpoint in
  try_except
    (response <- self_session_request
                   (mk_request method url params json headers None) ;;
     let text := resp_text response in
     if (resp_status response =? 401)%Z then
       raise (new_APIError AuthenticationError "Invalid API key"
                (Some 401) (Some text))
     else if (resp_status response =? 404)%Z then
       raise (new_APIError NotFoundError "Resource not found"
                (Some 404) (Some text))
     else if (resp_status response =? 429)%Z then
       raise (new_APIError RateLimitError "Rate limit exceeded"
                (Some 429) (Some text))
     else if (resp_status response =? 422)%Z then
       raise (new_APIError ValidationError "Validation error"
                (Some 422) (Some text))
     else if (resp_status response >=? 400)%Z then
       raise (new_APIError APIError ("API error: " ++ text)
                (Some (resp_status response)) (Some text))
     else
       lift (resp_json response))
    aiohttp_ClientError
    (λ e, raise (new_APIError APIError ("Request failed: " ++ exc_str e) None None)).

Definition search_dict
    (query port service product version country asn os vuln http_title
     http_status technology page size : pyval) : pydict :=
  [("query", query); ("port", port); ("service", service);
   ("product", product); ("version", version); ("country", country);
   ("asn", asn); ("os", os); ("vuln", vuln); ("http_title", http_title);
   ("http_status", http_status); ("technology", technology);
   ("page", page); ("size", size)].

Definition search_params
    (query port service product version country asn os vuln http_title
     http_status technology page size : pyval) : pydict :=
  drop_None (search_dict query port service product version country asn os
               vuln http_title http_status technology page size).

(** [AsyncCKMT.search(...)]; the defaults are [page=1] and [size=10]. *)
Definition search
    (query port service product version country asn os vuln http_title
     http_status technology page size : pyval) : M state json_value :=
  _request "GET" "/v1/search"
    (Some (search_params query port service product version country asn os
             vuln http_title http_status technology page size))
    None None.

(** [AsyncCKMT.host(ip)]. *)
Definition host (ip : string) : M state json_value :=
  _request "GET" ("/v1/search/host/" ++ ip) None None None.

Definition count_dict (query port country : pyval) : pydict :=
  [("query", query); ("port", port); ("country", country)].

Definition count_params (query port country : pyval) : pydict :=
  drop_None (count_dict query port country).

(** [AsyncCKMT.count(query=None, port=None, country=None)]. *)
Definition count (query port country : pyval) : M state json_value :=
  _request "GET" "/v1/search/count"
    (Some (count_params query port country)) None None.

Definition facets_dict (query facets : pyval) : pydict :=
  [("query", query); ("facets", facets)].

Definition facets_params (query facets : pyval) : pydict :=
  drop_None (facets_dict query facets).

(** [AsyncCKMT.facets(query=None, facets="country,port,service,technology")]. *)
Definition facets (query facets : pyval) : M state json_value :=
  _request "GET" "/v1/search/facets"
    (Some (facets_params query facets)) None None.

Definition ports_dict (query size : pyval) : pydict :=
  [("query", query); ("size", size)].

Definition ports_params (query size : pyval) : pydict :=
  drop_None (ports_dict query size).

(** [AsyncCKMT.ports(query=None, size=100)]. *)
Definition ports (query size : pyval) : M state json_value :=
  _request "GET" "/v1/search/ports"
    (Some (ports_params query size)) None None.

(** [AsyncCKMT.services()] and [AsyncCKMT.stats()]. *)
Definition services : M state json_value :=
  _request "GET" "/v1/search/services" None None None.

Definition stats : M state json_value :=
  _request "GET" "/v1/search/stats" None None None.

End WithTransport.

End AsyncCKMT.

(** The default values of the keyword arguments. *)
Definition default_page : pyval := PyInt 1.
Definition default_size : pyval := PyInt 10.
Definition default_facets : pyval := PyStr "country,port,service,technology".
Definition default_ports_size : pyval := PyInt 100.

(** ** Mocked transports and small observers *)

(** A transport that answers every request with the same outcome: a mocked
    response, or a mocked failure of the library. *)
Definition answers (x : result http_response) : transport := λ _ _, x.

(** The requests handed to [session.request], oldest first. *)
Definition requests_sent (w : world) : list request :=
  map ev_request (w_trace w).

(** The claim "the two modes end alike" on a pair of outcomes: both return
    the same value, or both raise the same Classified Error. *)
Definition same_outcome (a b : result json_value) : Prop :=
  (∃ v, a = Return v ∧ b = Return v) ∨
  (∃ e, classified e = true ∧ a = Raise e ∧ b = Raise e).

(** A dict literal and what is sent for it: no entry that is [None] in the
    literal has its key sent, and what is sent comes from the literal. *)
Definition omits_unset (raw sent : pydict) : Prop :=
  (∀ k, dict_get k raw = Some PyNone → k ∉ keys sent) ∧
  (∀ k v, (k, v) ∈ sent → v ≠ PyNone ∧ (k, v) ∈ raw).

(** A facade call sends one request, with the given query parameters. *)
Definition sends_params {S : Type} (trace : S → list event)
    (call : M S json_value) (p : pydict) : Prop :=
  ∀ s, ∃ ev, trace (call s).2 = (trace s ++ [ev])%list ∧
             req_params (ev_request ev) = Some p.



(** A facade call sends one request whose query parameters have their keys
    in the order of [order], each at most once. *)
Definition sends_keys_in_order {S : Type} (trace : S → list event)
    (call : M S json_value) (order : list string) : Prop :=
  ∃ p, sends_params trace call p ∧ sublist (keys p) order ∧ NoDup (keys p).

(** The base URL a construction is configured with: the supplied one when
    it is a non-empty string, else the [CKMT_BASE_URL] variable when it is
    set, else the default. *)
Definition configured_base_url (env : environ) (base_url : option string)
    (chosen : string) : Prop :=
  (base_url = Some chosen ∧ chosen ≠ "") ∨
  (truthy base_url = false ∧ env !! "CKMT_BASE_URL" = Some chosen) ∨
  (truthy base_url = false ∧ env !! "CKMT_BASE_URL" = None ∧
   chosen = "https://api.ckmt.io").

(** [stored] is [chosen] without its trailing slashes. *)
Definition normalised (chosen stored : string) : Prop :=
  stored = rstrip slash chosen ∧
  last_char stored ≠ Some slash ∧
  ∃ n, chosen = stored ++ replicate_char n slash.

(** The claim "a request issued after [close()] goes through an open
    session" for a suspending client in state [st]. *)
Definition reopened_after_close (net : transport) (st : AsyncCKMT.state)
    : Prop :=
  ∀ method endpoint params json headers ev,
    last (w_trace (AsyncCKMT.heap
            (AsyncCKMT._request net method endpoint params json headers
               (AsyncCKMT.close st).2).2)) = Some ev →
    ev_closed ev = false.

(** ** Fixtures: mocked environments, clients and responses *)

Definition env_without_key : environ := ∅.

Definition env_with_key : environ := {[ "CKMT_API_KEY" := "secret" ]}.

(** A blocking client as [CKMT(api_key="secret",
    base_url="https://example.com/")] leaves it, with its session. *)
Definition example_client : CKMT.client :=
  CKMT.mk_client "secret" "https://example.com" 30 0.

Definition example_world : world :=
  mk_world {[ 0%nat := mk_session (client_headers "secret") None false ]} [].

(** A suspending client right after construction: no session yet. *)
Definition example_state : AsyncCKMT.state :=
  AsyncCKMT.mk_state
    (AsyncCKMT.mk_client "secret" "https://example.com" 30 None) empty_world.

(** The same client after one request: it holds an open session. *)
Definition example_state_in_use : AsyncCKMT.state :=
  (AsyncCKMT._ensure_session example_state).2.

(** The body [{"total": 42, "matches": []}] and its decoding. *)
Definition dquote : string := String (ascii_of_nat 34) EmptyString.

Definition search_body : string :=
  "{" ++ dquote ++ "total" ++ dquote ++ ": 42, "
      ++ dquote ++ "matches" ++ dquote ++ ": []}".

Definition search_result : json_value :=
  JDict [("total", JInt 42); ("matches", JList [])].

Definition search_ok : http_response :=
  mk_response 200 search_body (Return search_result).

(** What each library's [response.json()] raises on a body that is not
    JSON: [requests] (2.27 and later; [setup.py] asks for 2.28) raises its own
    [requests.exceptions.JSONDecodeError], a [RequestException]; [aiohttp]
    lets [json.JSONDecodeError], a [ValueError], through. *)
Definition requests_decode_error : exc :=
  mk_exc requests_JSONDecodeError
    "Expecting value: line 1 column 1 (char 0)" None None.

Definition aiohttp_decode_error : exc :=
  mk_exc json_JSONDecodeError
    "Expecting value: line 1 column 1 (char 0)" None None.

(** A 200 response whose body is an HTML page, as each library presents it. *)
Definition html_page_requests : http_response :=
  mk_response 200 "<html></html>" (Raise requests_decode_error).

Definition html_page_aiohttp : http_response :=
  mk_response 200 "<html></html>" (Raise aiohttp_decode_error).

(** A 429 response with the body [rate limited]. *)
Definition rate_limited : http_response :=
  mk_response 429 "rate limited" (Raise aiohttp_decode_error).

(** Expiry of the timeout, as each library reports it: [requests] raises
    [requests.exceptions.Timeout]; [aiohttp] raises [asyncio.TimeoutError]
    when the total timeout of [ClientTimeout(total=timeout)] runs out. *)
Definition requests_timeout : exc :=
  mk_exc requests_Timeout "Read timed out. (read timeout=30)" None None.

Definition aiohttp_total_timeout : exc :=
  mk_exc asyncio_TimeoutError "" None None.

(** A refused connection, as each library reports it. *)
Definition requests_refused : exc :=
  mk_exc requests_ConnectionError "Connection refused" None None.

Definition aiohttp_refused : exc :=
  mk_exc aiohttp_ClientConnectorError "Cannot connect to host" None None.

(** ** Callers: scoped acquisition and the example scripts *)

(** [try: body  finally: final]: [final] runs on every exit of [body]; the
    outcome of [body] stands unless [final] raises. *)
Definition try_finally {S A} (body : M S A) (final : M S unit) : M S A :=
  λ s, match body s with
       | (r, s') =>
           match final s' with
           | (Return _, s'') => (r, s'')
           | (Raise e, s'') => (Raise e, s'')
           end
       end.

(** [async with client: body].  [__aexit__] returns [None], so an exception
    of the body is raised again after it. *)
Definition async_with {A} (body : M AsyncCKMT.state A) : M AsyncCKMT.state A :=
  bind AsyncCKMT.__aenter__ (λ _, try_finally body AsyncCKMT.__aexit__).

(** [examples/async_usage.py], [manual_session_example]: a client is
    constructed, [search("nginx")] is awaited and [close()] runs in the
    [finally] clause.  The value is what the script prints. *)
Definition manual_session_example (env : environ) (net : transport)
    : M world json_value :=
  λ w, match AsyncCKMT.__init__ env (Some "your_api_key_here") None 30 w with
       | (Return client, w1) =>
           let (r, st) :=
             try_finally
               (AsyncCKMT.search net (PyStr "nginx") PyNone PyNone PyNone
                  PyNone PyNone PyNone PyNone PyNone PyNone PyNone PyNone
                  default_page default_size)
               AsyncCKMT.close
               (AsyncCKMT.mk_state client w1) in
           (r, AsyncCKMT.heap st)
       | (Raise e, w1) => (Raise e, w1)
       end.

(** An operation a caller can issue on a suspending client; every facade
    method is a [_request]. *)
Inductive async_op : Type :=
  | op_aenter
  | op_aexit
  | op_close
  | op_ensure_session
  | op_request (method endpoint : string) (params : option pydict)
      (json : option json_value) (headers : option (list (string * string))).

(** The state an operation leaves, whether it returned or raised. *)
Definition run_op (net : transport) (st : AsyncCKMT.state) (op : async_op)
    : AsyncCKMT.state :=
  match op with
  | op_aenter => (AsyncCKMT.__aenter__ st).2
  | op_aexit => (AsyncCKMT.__aexit__ st).2
  | op_close => (AsyncCKMT.close st).2
  | op_ensure_session => (AsyncCKMT._ensure_session st).2
  | op_request method endpoint params json headers =>
      (AsyncCKMT._request net method endpoint params json headers st).2
  end.

(** A caller's operations one after the other. *)
Definition run_ops (net : transport) (ops : list async_op)
    (st : AsyncCKMT.state) : AsyncCKMT.state :=
  fold_left (run_op net) ops st.

(** The session a request of the client in state [st] goes through: the
    stored one, or else the one [_ensure_session] is about to create. *)
Definition session_in_use (st : AsyncCKMT.state) : nat :=
  match AsyncCKMT.session (AsyncCKMT.self st) with
  | Some sid => sid
  | None => fresh (dom (w_sessions (AsyncCKMT.heap st)))
  end.

(** The operations that send requests or prepare for one, as opposed to
    those that open and close the scoped block. *)
Definition is_request (op : async_op) : bool :=
  match op with
  | op_request _ _ _ _ _ | op_ensure_session => true
  | _ => false
  end.

(** The three ways an operation changes the state of a suspending client:
    a fresh open session is created and stored, the stored session is marked
    closed, a request is recorded against a session. *)
Definition after_install (st : AsyncCKMT.state) : AsyncCKMT.state :=
  let c := AsyncCKMT.self st in
  let sid := fresh (dom (w_sessions (AsyncCKMT.heap st))) in
  AsyncCKMT.mk_state
    (AsyncCKMT.mk_client (AsyncCKMT.api_key c) (AsyncCKMT.base_url c)
       (AsyncCKMT.timeout c) (Some sid))
    (mk_world
       (<[sid := mk_session (client_headers (AsyncCKMT.api_key c))
                   (Some (AsyncCKMT.timeout c)) false]>
          (w_sessions (AsyncCKMT.heap st)))
       (w_trace (AsyncCKMT.heap st))).

Definition after_close (st : AsyncCKMT.state) (sid : nat) : AsyncCKMT.state :=
  AsyncCKMT.mk_state (AsyncCKMT.self st)
    (mk_world
       (alter (λ s, mk_session (s_headers s) (s_timeout s) true) sid
          (w_sessions (AsyncCKMT.heap st)))
       (w_trace (AsyncCKMT.heap st))).

Definition after_send (st : AsyncCKMT.state) (sid : nat) (rq : request)
    : AsyncCKMT.state :=
  AsyncCKMT.mk_state (AsyncCKMT.self st)
    (mk_world (w_sessions (AsyncCKMT.heap st))
       (w_trace (AsyncCKMT.heap st) ++
        [Sent sid (s_closed (deref (AsyncCKMT.heap st) sid)) rq])).

(** The operations that put a request on the wire. *)
Definition is_send (op : async_op) : bool :=
  match op with
  | op_request _ _ _ _ _ => true
  | _ => false
  end.

(** The request an operation puts on the wire, for a client whose base
    URL is [base]. *)
Definition request_of (base : string) (op : async_op) : option request :=
  match op with
  | op_request method endpoint params json headers =>
      Some (mk_request method (base ++ endpoint) params json headers None)
  | _ => None
  end.

(** The operations other than [close] and [__aexit__]. *)
Definition never_closes (op : async_op) : bool :=
  match op with
  | op_close | op_aexit => false
  | _ => true
  end.

(** The session a client stores, when it stores one, is there and open. *)
Definition stored_open (st : AsyncCKMT.state) : Prop :=
  ∀ sid, AsyncCKMT.session (AsyncCKMT.self st) = Some sid →
    ∃ s, w_sessions (AsyncCKMT.heap st) !! sid = Some s ∧ s_closed s = false.

(** The session a client stores, when it stores one, exists and carries
    the headers and the timeout of that client. *)
Definition session_well_formed (st : AsyncCKMT.state) : Prop :=
  ∀ sid, AsyncCKMT.session (AsyncCKMT.self st) = Some sid →
    ∃ s, w_sessions (AsyncCKMT.heap st) !! sid = Some s ∧
         s_headers s = client_headers (AsyncCKMT.api_key (AsyncCKMT.self st)) ∧
         s_timeout s = Some (AsyncCKMT.timeout (AsyncCKMT.self st)).

(** The session behind a reference is there and closed. *)
Definition is_closed (w : world) (sid : nat) : Prop :=
  ∃ s, w_sessions w !! sid = Some s ∧ s_closed s = true.

(** The session behind a reference is there and open. *)
Definition is_open (w : world) (sid : nat) : Prop :=
  ∃ s, w_sessions w !! sid = Some s ∧ s_closed s = false.

(** ** [examples/cli_tool.py] *)

Module cli_tool.

(** What [parser.parse_args()] hands to [main]: the sub-command with its
    own attributes.  [argparse] admits no other sub-command, so the last
    [else] of [main] has no input. *)
Inductive subcommand : Type :=
  | cmd_search (query port service country page size : pyval)
  | cmd_host (ip : string)
  | cmd_count (query port country : pyval)
  | cmd_stats
  | cmd_facets (query facets : pyval)
  | cmd_ports (query size : pyval)
  | cmd_services.

Record namespace : Type := mk_namespace {
  api_key : option string;
  command : option subcommand
}.

(** What the process writes: [print(format_json(result))],
    [print(..., file=sys.stderr)] and [parser.print_help()]. *)
Inductive output : Type :=
  | Stdout (result : json_value)
  | Stderr (message : string)
  | Help.

(** How [main] ends: it returns, it calls [sys.exit(code)], or an exception
    that no handler takes leaves it. *)
Inductive ending : Type :=
  | Returned
  | Exit (code : Z)
  | Uncaught (e : exc).

(** The chain of [if args.command == ...] inside the [try] block. *)
Definition dispatch (net : transport) (client : CKMT.client)
    (cmd : subcommand) : M world json_value :=
  match cmd with
  | cmd_search query port service country page size =>
      CKMT.search net client query port service PyNone PyNone country
        PyNone PyNone PyNone PyNone PyNone PyNone page size
  | cmd_host ip => CKMT.host net client ip
  | cmd_count query port country => CKMT.count net client query port country
  | cmd_stats => CKMT.stats net client
  | cmd_facets query facets => CKMT.facets net client query facets
  | cmd_ports query size => CKMT.ports net client query size
  | cmd_services => CKMT.services net client
  end.

(** [main()] from the test of [args.command] on (lines 59 to 118), given the
    namespace that [parser.parse_args()] returned.  What [argparse] does
    before that (a usage message and exit status 2 on arguments it rejects,
    the help and exit status 0 on [-h]) ends the process inside
    [parse_args()] and is no part of this function. *)
Definition main (env : environ) (net : transport) (args : namespace)
    (w : world) : list output * ending * world :=
  match command args with
  | None => ([Help], Exit 1, w)
  | Some cmd =>
      match (client <- CKMT.__init__ env (api_key args) None 30 ;;
             dispatch net client cmd) w with
      | (Return result, w') => ([Stdout result], Returned, w')
      | (Raise e, w') =>
          if isinstance e CKMTError then
            ([Stderr ("Error: " ++ exc_str e)], Exit 1, w')
          else if isinstance e Exception then
            ([Stderr ("Unexpected error: " ++ exc_str e)], Exit 1, w')
          else
            ([], Uncaught e, w')
      end
  end.

End cli_tool.

(** ** Tactics for running the clients *)

Ltac unfold_monad :=
  unfold try_except, bind, ret, raise, lift, get, modify,
    session_request, new_session, session_close, answers.

Ltac unfold_sync :=
  unfold CKMT.search, CKMT.host, CKMT.count, CKMT.facets, CKMT.ports,
    CKMT.services, CKMT.stats, CKMT._request; unfold_monad.

Ltac unfold_async :=
  unfold AsyncCKMT.search, AsyncCKMT.host, AsyncCKMT.count, AsyncCKMT.facets,
    AsyncCKMT.ports, AsyncCKMT.services, AsyncCKMT.stats, AsyncCKMT._request,
    AsyncCKMT._ensure_session, AsyncCKMT.close, AsyncCKMT.__aenter__,
    AsyncCKMT.__aexit__, AsyncCKMT.self_session_request,
    AsyncCKMT.new_client_session, AsyncCKMT.set_session, AsyncCKMT.in_world;
  unfold_monad.

(** Decides the chain of status tests. *)
Ltac status_cases :=
  repeat match goal with
    | |- context [Z.eqb ?a ?b] => destruct (Z.eqb_spec a b); try lia
    | |- context [Z.geb ?a ?b] => destruct (Z.geb_spec a b); try lia
    | |- context [decide ?P] => destruct (decide P); try lia
    end.

(** ** Strings *)

Lemma rstrip_no_trailing (c : ascii) (s : string) :
  last_char (rstrip c s) ≠ Some c.
Proof.
  induction s as [|a t IH]; cbn [rstrip]; [discriminate|].
  destruct (rstrip c t) as [|a' t'] eqn:E.
  - destruct (Ascii.eqb_spec a c) as [->|Hne]; cbn; congruence.
  - exact IH.
Qed.

Lemma rstrip_only_trailing (c : ascii) (s : string) :
  ∃ n, s = rstrip c s ++ replicate_char n c.
Proof.
  induction s as [|a t [n IH]]; cbn [rstrip].
  - by exists 0%nat.
  - destruct (rstrip c t) as [|a' t'] eqn:E.
    + destruct (Ascii.eqb_spec a c) as [->|Hne].
      * exists (S n). cbn. by rewrite IH at 1.
      * exists n. cbn. by rewrite IH at 1.
    + exists n. cbn. by rewrite IH at 1.
Qed.

Lemma rstrip_fixed (c : ascii) (s : string) :
  last_char s ≠ Some c → rstrip c s = s.
Proof.
  induction s as [|a t IH]; [done|]. cbn [rstrip last_char].
  destruct t as [|a' t'].
  - cbn. intros H. destruct (Ascii.eqb_spec a c); congruence.
  - intros H. rewrite (IH H). done.
Qed.

(** ** Dict comprehension *)

Lemma drop_None_elem (d : pydict) (k : string) (v : pyval) :
  (k, v) ∈ drop_None d ↔ (k, v) ∈ d ∧ v ≠ PyNone.
Proof.
  unfold drop_None. rewrite list_elem_of_filter. cbn.
  split; intros [H1 H2]; split; try done.
  - by destruct v.
  - by destruct v.
Qed.


Lemma elem_dict_get (d : pydict) (k : string) (v : pyval) :
  NoDup (keys d) → (k, v) ∈ d → dict_get k d = Some v.
Proof.
  induction d as [|[k' v'] d IH]; cbn; intros Hnd Hin.
  - by apply elem_of_nil in Hin.
  - apply NoDup_cons in Hnd as [Hk Hnd].
    apply elem_of_cons in Hin as [[= <- <-]|Hin].
    + by rewrite String.eqb_refl.
    + destruct (String.eqb_spec k k') as [->|Hne]; [|by apply IH].
      exfalso. apply Hk. apply list_elem_of_fmap. by exists (k', v).
Qed.

Lemma keys_drop_None_sub (d : pydict) (k : string) :
  k ∈ keys (drop_None d) → k ∈ keys d.
Proof.
  unfold keys. rewrite !list_elem_of_fmap.
  intros [[k' v] [-> H]]. apply drop_None_elem in H as [H _].
  by exists (k', v).
Qed.

Lemma NoDup_keys_drop_None (d : pydict) :
  NoDup (keys d) → NoDup (keys (drop_None d)).
Proof.
  induction d as [|[k v] d IH]; cbn; [done|].
  intros [Hk Hnd]%NoDup_cons. unfold drop_None in *. cbn.
  destruct (decide (is_not_None v = true)); cbn; [|by apply IH].
  apply NoDup_cons. split; [|by apply IH].
  intros H. apply Hk. by apply keys_drop_None_sub.
Qed.


Lemma drop_None_omits_unset (d : pydict) :
  NoDup (keys d) → omits_unset d (drop_None d).
Proof.
  intros Hnd. split.
  - intros k Hk Hin. unfold keys in Hin.
    apply list_elem_of_fmap in Hin as [[k' v] [-> Hin]]. cbn in Hk.
    pose proof Hin as [Hraw Hv]%drop_None_elem.
    apply (elem_dict_get _ _ _ Hnd) in Hraw. congruence.
  - intros k v H. apply drop_None_elem in H as [? ?]. done.
Qed.

(** ** Exception classes *)

(** The SDK's own errors belong to neither library's hierarchy, so the
    [except] clause of [_request] never catches what its [try] block raises
    on a status code. *)
Lemma classified_not_caught (c : exc_class) :
  issubclass c APIError = true →
  issubclass c requests_RequestException = false ∧
  issubclass c aiohttp_ClientError = false.
Proof. destruct c; vm_compute; (discriminate || done). Qed.

(** The fuel of [issubclass] is enough: more changes no answer. *)
Lemma issubclass_fuel_enough (c d : exc_class) :
  issubclass_upto 6 c d = issubclass c d ∧
  issubclass_upto 7 c d = issubclass c d.
Proof. destruct c, d; split; reflexivity. Qed.

Lemma classified_new_APIError (cls : exc_class) (msg : string)
    (code : option Z) (body : option string) :
  issubclass cls APIError = true →
  classified (new_APIError cls msg code body) = true.
Proof. done. Qed.

(** ** Running [_request] *)

(** The outcome of the blocking executor on a received response. *)
Lemma sync_request_response (self : CKMT.client) (method endpoint : string)
    (params : option pydict) (json : option json_value)
    (headers : option (list (string * string))) (w : world)
    (status : Z) (body : string) (js : result json_value) :
  (CKMT._request (answers (Return (mk_response status body js)))
     self method endpoint params json headers w).1 =
  if decide (status = 401) then
    Raise (new_APIError AuthenticationError "Invalid API key" (Some 401) (Some body))
  else if decide (status = 404) then
    Raise (new_APIError NotFoundError "Resource not found" (Some 404) (Some body))
  else if decide (status = 429) then
    Raise (new_APIError RateLimitError "Rate limit exceeded" (Some 429) (Some body))
  else if decide (status = 422) then
    Raise (new_APIError ValidationError "Validation error" (Some 422) (Some body))
  else if decide (400 ≤ status) then
    Raise (new_APIError APIError ("API error: " ++ body) (Some status) (Some body))
  else
    match js with
    | Return v => Return v
    | Raise e =>
        if isinstance e requests_RequestException
        then Raise (new_APIError APIError ("Request failed: " ++ exc_str e) None None)
        else Raise e
    end.
Proof.
  unfold_sync. cbn. status_cases; subst; try reflexivity.
  destruct js as [v|e]; cbn; [reflexivity|].
  by destruct (isinstance e requests_RequestException).
Qed.

(** The outcome of the suspending executor on a received response. *)
Lemma async_request_response (st : AsyncCKMT.state) (method endpoint : string)
    (params : option pydict) (json : option json_value)
    (headers : option (list (string * string)))
    (status : Z) (body : string) (js : result json_value) :
  (AsyncCKMT._request (answers (Return (mk_response status body js)))
     method endpoint params json headers st).1 =
  if decide (status = 401) then
    Raise (new_APIError AuthenticationError "Invalid API key" (Some 401) (Some body))
  else if decide (status = 404) then
    Raise (new_APIError NotFoundError "Resource not found" (Some 404) (Some body))
  else if decide (status = 429) then
    Raise (new_APIError RateLimitError "Rate limit exceeded" (Some 429) (Some body))
  else if decide (status = 422) then
    Raise (new_APIError ValidationError "Validation error" (Some 422) (Some body))
  else if decide (400 ≤ status) then
    Raise (new_APIError APIError ("API error: " ++ body) (Some status) (Some body))
  else
    match js with
    | Return v => Return v
    | Raise e =>
        if isinstance e aiohttp_ClientError
        then Raise (new_APIError APIError ("Request failed: " ++ exc_str e) None None)
        else Raise e
    end.
Proof.
  unfold_async. destruct st as [[k b t [sid|]] w]; cbn.
  all: status_cases; subst; try reflexivity.
  all: destruct js as [v|e]; cbn; [reflexivity|].
  all: by destruct (isinstance e aiohttp_ClientError).
Qed.

(** The outcome of either executor when the library raises instead of
    handing back a response. *)
Lemma sync_request_failure (self : CKMT.client) (method endpoint : string)
    (params : option pydict) (json : option json_value)
    (headers : option (list (string * string))) (w : world) (e : exc) :
  (CKMT._request (answers (Raise e)) self method endpoint params json headers w).1 =
  if isinstance e requests_RequestException
  then Raise (new_APIError APIError ("Request failed: " ++ exc_str e) None None)
  else Raise e.
Proof.
  unfold_sync. cbn. by destruct (isinstance e requests_RequestException).
Qed.

Lemma async_request_failure (st : AsyncCKMT.state) (method endpoint : string)
    (params : option pydict) (json : option json_value)
    (headers : option (list (string * string))) (e : exc) :
  (AsyncCKMT._request (answers (Raise e)) method endpoint params json headers st).1 =
  if isinstance e aiohttp_ClientError
  then Raise (new_APIError APIError ("Request failed: " ++ exc_str e) None None)
  else Raise e.
Proof.
  unfold_async. destruct st as [[k b t [sid|]] w]; cbn.
  all: by destruct (isinstance e aiohttp_ClientError).
Qed.

(** ** What goes out on the wire *)

(** The blocking executor sends one request, to [base_url ++ endpoint],
    through the client's session. *)
Lemma sync_request_trace (net : transport) (self : CKMT.client)
    (method endpoint : string) (params : option pydict)
    (json : option json_value) (headers : option (list (string * string)))
    (w : world) :
  (CKMT._request net self method endpoint params json headers w).2 =
    mk_world (w_sessions w)
      (w_trace w ++
       [Sent (CKMT.session self) (s_closed (deref w (CKMT.session self)))
          (mk_request method (CKMT.base_url self ++ endpoint) params json
             headers (Some (CKMT.timeout self)))]).
Proof.
  unfold_sync. cbn.
  destruct (net _ _) as [r|e]; cbn.
  - status_cases; try reflexivity.
    all: try (destruct (isinstance _ _); reflexivity).
    destruct (resp_json r) as [v|e]; cbn; [reflexivity|].
    destruct (isinstance _ _); reflexivity.
  - destruct (isinstance _ _); reflexivity.
Qed.

(** ** The session of the suspending client *)

Lemma ensure_session_creates (st : AsyncCKMT.state) :
  AsyncCKMT.session (AsyncCKMT.self st) = None →
  let sid := fresh (dom (w_sessions (AsyncCKMT.heap st))) in
  AsyncCKMT._ensure_session st =
    (Return tt,
     AsyncCKMT.mk_state
       (AsyncCKMT.mk_client (AsyncCKMT.api_key (AsyncCKMT.self st))
          (AsyncCKMT.base_url (AsyncCKMT.self st))
          (AsyncCKMT.timeout (AsyncCKMT.self st)) (Some sid))
       (mk_world
          (<[sid := mk_session (client_headers (AsyncCKMT.api_key (AsyncCKMT.self st)))
                      (Some (AsyncCKMT.timeout (AsyncCKMT.self st))) false]>
             (w_sessions (AsyncCKMT.heap st)))
          (w_trace (AsyncCKMT.heap st)))).
Proof.
  destruct st as [[k b t s] w]. cbn. intros ->. reflexivity.
Qed.

Lemma ensure_session_keeps (st : AsyncCKMT.state) (sid : nat) :
  AsyncCKMT.session (AsyncCKMT.self st) = Some sid →
  AsyncCKMT._ensure_session st = (Return tt, st).
Proof.
  destruct st as [[k b t s] w]. cbn. intros ->. reflexivity.
Qed.

Lemma aenter_installs (st : AsyncCKMT.state) :
  let sid := fresh (dom (w_sessions (AsyncCKMT.heap st))) in
  AsyncCKMT.__aenter__ st =
    (Return tt,
     AsyncCKMT.mk_state
       (AsyncCKMT.mk_client (AsyncCKMT.api_key (AsyncCKMT.self st))
          (AsyncCKMT.base_url (AsyncCKMT.self st))
          (AsyncCKMT.timeout (AsyncCKMT.self st)) (Some sid))
       (mk_world
          (<[sid := mk_session (client_headers (AsyncCKMT.api_key (AsyncCKMT.self st)))
                      (Some (AsyncCKMT.timeout (AsyncCKMT.self st))) false]>
             (w_sessions (AsyncCKMT.heap st)))
          (w_trace (AsyncCKMT.heap st)))).
Proof. destruct st as [[k b t s] w]. reflexivity. Qed.

Lemma close_marks_closed (st : AsyncCKMT.state) (sid : nat) :
  AsyncCKMT.session (AsyncCKMT.self st) = Some sid →
  AsyncCKMT.close st =
    (Return tt,
     AsyncCKMT.mk_state (AsyncCKMT.self st)
       (mk_world
          (alter (λ s, mk_session (s_headers s) (s_timeout s) true) sid
             (w_sessions (AsyncCKMT.heap st)))
          (w_trace (AsyncCKMT.heap st)))).
Proof.
  destruct st as [[k b t s] w]. cbn. intros ->. reflexivity.
Qed.

Lemma close_without_session (st : AsyncCKMT.state) :
  AsyncCKMT.session (AsyncCKMT.self st) = None →
  AsyncCKMT.close st = (Return tt, st).
Proof.
  destruct st as [[k b t s] w]. cbn. intros ->. reflexivity.
Qed.

Lemma fresh_session_unused (w : world) :
  w_sessions w !! fresh (dom (w_sessions w)) = None.
Proof. apply not_elem_of_dom, is_fresh. Qed.

(** A stored session stays stored across [_request]: the request goes out
    through it, whatever its state. *)
Lemma async_request_trace_stored (net : transport) (st : AsyncCKMT.state)
    (sid : nat) (method endpoint : string) (params : option pydict)
    (json : option json_value) (headers : option (list (string * string))) :
  AsyncCKMT.session (AsyncCKMT.self st) = Some sid →
  (AsyncCKMT._request net method endpoint params json headers st).2 =
    AsyncCKMT.mk_state (AsyncCKMT.self st)
      (mk_world (w_sessions (AsyncCKMT.heap st))
         (w_trace (AsyncCKMT.heap st) ++
          [Sent sid (s_closed (deref (AsyncCKMT.heap st) sid))
             (mk_request method
                (AsyncCKMT.base_url (AsyncCKMT.self st) ++ endpoint)
                params json headers None)])).
Proof.
  destruct st as [[k b t s] w]. cbn. intros ->.
  unfold_async. cbn.
  destruct (net _ _) as [r|e]; cbn.
  - status_cases; try reflexivity.
    all: try (destruct (isinstance _ _); reflexivity).
    destruct (resp_json r) as [v|e]; cbn; [reflexivity|].
    destruct (isinstance _ _); reflexivity.
  - destruct (isinstance _ _); reflexivity.
Qed.

(** [_request] is [_ensure_session] followed by a request through the
    stored session. *)
Lemma async_request_after_ensure (net : transport) (st : AsyncCKMT.state)
    (method endpoint : string) (params : option pydict)
    (json : option json_value) (headers : option (list (string * string))) :
  AsyncCKMT._request net method endpoint params json headers st =
  AsyncCKMT._request net method endpoint params json headers
    (AsyncCKMT._ensure_session st).2.
Proof.
  destruct st as [[k b t [sid|]] w]; [reflexivity|].
  unfold_async. cbn. reflexivity.
Qed.

(** ** The Request Executor: status codes *)

(** C1.  Whatever response the executor receives, in either mode: status 401
    raises [AuthenticationError], 404 [NotFoundError], 429 [RateLimitError],
    422 [ValidationError], and every other status from 400 on the plain
    [APIError]; the error's [status_code] is the response's status, its
    [response] is the raw body, and the plain [APIError]'s message is
    ["API error: "] followed by the raw body. *)
Theorem status_classification (self : CKMT.client) (st : AsyncCKMT.state)
    (w : world) (method endpoint : string) (params : option pydict)
    (json : option json_value) (headers : option (list (string * string)))
    (status : Z) (body : string) (js : result json_value) :
  let received := answers (Return (mk_response status body js)) in
  let blocking :=
    (CKMT._request received self method endpoint params json headers w).1 in
  let suspending :=
    (AsyncCKMT._request received method endpoint params json headers st).1 in
  let raised cls msg :=
    blocking = Raise (mk_exc cls msg (Some status) (Some body)) ∧
    suspending = Raise (mk_exc cls msg (Some status) (Some body)) in
  (status = 401 → raised AuthenticationError "Invalid API key") ∧
  (status = 404 → raised NotFoundError "Resource not found") ∧
  (status = 429 → raised RateLimitError "Rate limit exceeded") ∧
  (status = 422 → raised ValidationError "Validation error") ∧
  (400 ≤ status → status ≠ 401 → status ≠ 404 → status ≠ 429 → status ≠ 422 →
   raised APIError ("API error: " ++ body)).
Proof.
  cbv zeta.
  rewrite sync_request_response, async_request_response.
  repeat split; intros; subst; status_cases; reflexivity.
Qed.

Lemma status_classification_witness :
  ((CKMT._request (answers (Return rate_limited)) example_client
      "GET" "/v1/search" None None None example_world).1 =
     Raise (mk_exc RateLimitError "Rate limit exceeded" (Some 429)
              (Some "rate limited")) ∧
   (AsyncCKMT._request (answers (Return rate_limited))
      "GET" "/v1/search" None None None example_state).1 =
     Raise (mk_exc RateLimitError "Rate limit exceeded" (Some 429)
              (Some "rate limited"))) ∧
  ((CKMT._request (answers (Return (mk_response 503 "down" (Return JNull))))
      example_client "GET" "/v1/search" None None None example_world).1 =
     Raise (mk_exc APIError "API error: down" (Some 503) (Some "down")) ∧
   (AsyncCKMT._request (answers (Return (mk_response 503 "down" (Return JNull))))
      "GET" "/v1/search" None None None example_state).1 =
     Raise (mk_exc APIError "API error: down" (Some 503) (Some "down"))).
Proof.
  split.
  - pose proof (status_classification example_client example_state
                  example_world "GET" "/v1/search" None None None
                  429 "rate limited" (Raise aiohttp_decode_error)) as H.
    cbv zeta in H. destruct H as (_ & _ & H & _). exact (H eq_refl).
  - pose proof (status_classification example_client example_state
                  example_world "GET" "/v1/search" None None None
                  503 "down" (Return JNull)) as H.
    cbv zeta in H. destruct H as (_ & _ & _ & _ & H).
    apply H; lia.
Defined.

(** ** The Request Executor: the two modes side by side *)

(** C2, as stated, fails: on a 200 response whose body is not JSON the
    blocking executor raises [APIError] (the decode error of [requests] is a
    [RequestException] and is caught), the suspending one lets
    [json.JSONDecodeError] through. *)
Lemma modes_differ_on_undecodable_body :
  resp_status html_page_requests = resp_status html_page_aiohttp ∧
  resp_text html_page_requests = resp_text html_page_aiohttp ∧
  (CKMT._request (answers (Return html_page_requests)) example_client
     "GET" "/v1/search" None None None example_world).1 =
    Raise (mk_exc APIError
             "Request failed: Expecting value: line 1 column 1 (char 0)"
             None None) ∧
  (AsyncCKMT._request (answers (Return html_page_aiohttp))
     "GET" "/v1/search" None None None example_state).1 =
    Raise aiohttp_decode_error ∧
  ¬ same_outcome
      (CKMT._request (answers (Return html_page_requests)) example_client
         "GET" "/v1/search" None None None example_world).1
      (AsyncCKMT._request (answers (Return html_page_aiohttp))
         "GET" "/v1/search" None None None example_state).1.
Proof.
  unfold html_page_requests, html_page_aiohttp.
  rewrite sync_request_response, async_request_response.
  repeat split.
  intros [(v & H & _)|(e & _ & H1 & H2)]; [discriminate H|].
  vm_compute in H1, H2. rewrite <- H1 in H2. discriminate H2.
Qed.

(** C2, amended.  On responses with the same status and body, the two
    executors end alike whenever the status is 400 or more (the same
    Classified Error: class, message, [status_code], [response]) or the body
    decodes, in both libraries, to the same JSON value (that value is
    returned). *)
Theorem modes_agree_when_body_decodes (self : CKMT.client)
    (st : AsyncCKMT.state) (w : world) (method endpoint : string)
    (params : option pydict) (json : option json_value)
    (headers : option (list (string * string))) (rs ra : http_response) :
  resp_status rs = resp_status ra →
  resp_text rs = resp_text ra →
  (400 ≤ resp_status rs ∨
   ∃ v, resp_json rs = Return v ∧ resp_json ra = Return v) →
  same_outcome
    (CKMT._request (answers (Return rs)) self method endpoint params json headers w).1
    (AsyncCKMT._request (answers (Return ra)) method endpoint params json headers st).1.
Proof.
  destruct rs as [status body js], ra as [status' body' js']. cbn.
  intros <- <- Hcase.
  rewrite sync_request_response, async_request_response.
  unfold same_outcome.
  repeat case_decide; subst;
    try (right; eexists; split; [|split; reflexivity]; reflexivity).
  destruct Hcase as [Hge|(v & -> & ->)]; [lia|].
  left. by exists v.
Qed.

Lemma modes_agree_when_body_decodes_witness :
  same_outcome
    (CKMT._request (answers (Return search_ok)) example_client
       "GET" "/v1/search" None None None example_world).1
    (AsyncCKMT._request (answers (Return search_ok))
       "GET" "/v1/search" None None None example_state).1.
Proof.
  apply modes_agree_when_body_decodes; [reflexivity|reflexivity|].
  right. exists search_result. split; reflexivity.
Defined.

(** ** The Request Executor: failures of the transport *)

(** Every exception of the library's own base class is caught and comes out
    as the plain [APIError], with ["Request failed: "] and the library's
    description as its message. *)
Lemma library_errors_wrapped (self : CKMT.client) (st : AsyncCKMT.state)
    (w : world) (method endpoint : string) (params : option pydict)
    (json : option json_value) (headers : option (list (string * string)))
    (e : exc) :
  (isinstance e requests_RequestException = true →
   (CKMT._request (answers (Raise e)) self method endpoint params json headers w).1 =
     Raise (mk_exc APIError ("Request failed: " ++ exc_str e) None None)) ∧
  (isinstance e aiohttp_ClientError = true →
   (AsyncCKMT._request (answers (Raise e)) method endpoint params json headers st).1 =
     Raise (mk_exc APIError ("Request failed: " ++ exc_str e) None None)).
Proof.
  rewrite sync_request_failure, async_request_failure.
  split; intros ->; reflexivity.
Qed.

Lemma library_errors_wrapped_witness :
  (CKMT._request (answers (Raise requests_refused)) example_client
     "GET" "/v1/search/stats" None None None example_world).1 =
    Raise (mk_exc APIError "Request failed: Connection refused" None None) ∧
  (AsyncCKMT._request (answers (Raise aiohttp_refused))
     "GET" "/v1/search/stats" None None None example_state).1 =
    Raise (mk_exc APIError "Request failed: Cannot connect to host" None None).
Proof.
  split.
  - apply (proj1 (library_errors_wrapped example_client example_state
                    example_world "GET" "/v1/search/stats" None None None
                    requests_refused)).
    reflexivity.
  - apply (proj2 (library_errors_wrapped example_client example_state
                    example_world "GET" "/v1/search/stats" None None None
                    aiohttp_refused)).
    reflexivity.
Defined.

(** C4 at the input where it fails.  When the total timeout of the
    suspending client expires, [aiohttp] raises [asyncio.TimeoutError], which
    is no [aiohttp.ClientError]: the [except] clause does not catch it and
    the caller gets the original exception, not an [APIError].  The blocking
    client, on its library's timeout, raises the [APIError]. *)
Theorem async_timeout_escapes (self : CKMT.client) (st : AsyncCKMT.state)
    (w : world) (method endpoint : string) (params : option pydict)
    (json : option json_value) (headers : option (list (string * string))) :
  (AsyncCKMT._request (answers (Raise aiohttp_total_timeout))
     method endpoint params json headers st).1 = Raise aiohttp_total_timeout ∧
  classified aiohttp_total_timeout = false ∧
  (CKMT._request (answers (Raise requests_timeout))
     self method endpoint params json headers w).1 =
    Raise (mk_exc APIError "Request failed: Read timed out. (read timeout=30)"
             None None).
Proof.
  rewrite sync_request_failure, async_request_failure.
  repeat split.
Qed.

(** ** The Request Executor: success *)

(** C5.  On a response with a status below 400, either executor returns
    what decoding the body gave, unchanged. *)
Theorem success_returns_decoded_body (self : CKMT.client)
    (st : AsyncCKMT.state) (w : world) (method endpoint : string)
    (params : option pydict) (json : option json_value)
    (headers : option (list (string * string)))
    (status : Z) (body : string) (decoded : json_value) :
  status < 400 →
  let received := answers (Return (mk_response status body (Return decoded))) in
  (CKMT._request received self method endpoint params json headers w).1 =
    Return decoded ∧
  (AsyncCKMT._request received method endpoint params json headers st).1 =
    Return decoded.
Proof.
  intros Hlt. cbv zeta.
  rewrite sync_request_response, async_request_response.
  split; repeat case_decide; (lia || reflexivity).
Qed.

Lemma success_returns_decoded_body_witness :
  (CKMT._request (answers (Return search_ok)) example_client
     "GET" "/v1/search" None None None example_world).1 =
    Return (JDict [("total", JInt 42); ("matches", JList [])]) ∧
  (AsyncCKMT._request (answers (Return search_ok))
     "GET" "/v1/search" None None None example_state).1 =
    Return (JDict [("total", JInt 42); ("matches", JList [])]).
Proof.
  apply (success_returns_decoded_body example_client example_state
           example_world "GET" "/v1/search" None None None
           200 search_body search_result).
  lia.
Defined.

(** ** The Endpoint Facade: query parameters *)

Lemma sync_request_sends (net : transport) (self : CKMT.client)
    (method endpoint : string) (p : pydict) :
  sends_params w_trace
    (CKMT._request net self method endpoint (Some p) None None) p.
Proof.
  intros w. rewrite sync_request_trace. cbn. eexists. split; reflexivity.
Qed.

Lemma async_request_sends (net : transport) (method endpoint : string)
    (p : pydict) :
  sends_params (λ st, w_trace (AsyncCKMT.heap st))
    (AsyncCKMT._request net method endpoint (Some p) None None) p.
Proof.
  intros st.
  destruct (AsyncCKMT.session (AsyncCKMT.self st)) as [sid|] eqn:E.
  - rewrite (async_request_trace_stored _ _ sid) by done.
    eexists. split; reflexivity.
  - rewrite async_request_after_ensure, (ensure_session_creates _ E).
    cbn [snd].
    erewrite async_request_trace_stored by reflexivity.
    eexists. split; reflexivity.
Qed.

(** The keys of each dict literal are distinct. *)
Lemma search_dict_keys
    (query port service product version country asn os vuln http_title
     http_status technology page size : pyval) :
  keys (CKMT.search_dict query port service product version country asn os
          vuln http_title http_status technology page size) =
    ["query"; "port"; "service"; "product"; "version"; "country"; "asn";
     "os"; "vuln"; "http_title"; "http_status"; "technology"; "page"; "size"] ∧
  AsyncCKMT.search_dict query port service product version country asn os
    vuln http_title http_status technology page size =
  CKMT.search_dict query port service product version country asn os
    vuln http_title http_status technology page size.
Proof. split; reflexivity. Qed.

Lemma search_dict_NoDup
    (query port service product version country asn os vuln http_title
     http_status technology page size : pyval) :
  NoDup (keys (CKMT.search_dict query port service product version country
                 asn os vuln http_title http_status technology page size)).
Proof.
  rewrite (proj1 (search_dict_keys _ _ _ _ _ _ _ _ _ _ _ _ _ _)).
  apply (bool_decide_unpack _). vm_compute. exact I.
Qed.

Lemma small_dicts_NoDup (a b c : pyval) :
  NoDup (keys (CKMT.count_dict a b c)) ∧
  NoDup (keys (CKMT.facets_dict a b)) ∧
  NoDup (keys (CKMT.ports_dict a b)).
Proof.
  repeat split; apply (bool_decide_unpack _); vm_compute; exact I.
Qed.

(** C3.  Each of [search], [count], [facets] and [ports], in either mode,
    sends as query parameters its dict literal without the entries whose
    value is [None]: the key of an unset argument is never sent.  With every
    optional argument unset, [search] sends only [page=1] and [size=10],
    [count] sends nothing, [facets] only the default facets string and
    [ports] only [size=100]. *)
Theorem unset_filters_not_sent :
  (∀ net self query port service product version country asn os vuln
     http_title http_status technology page size,
     sends_params w_trace
       (CKMT.search net self query port service product version country asn
          os vuln http_title http_status technology page size)
       (CKMT.search_params query port service product version country asn os
          vuln http_title http_status technology page size) ∧
     omits_unset
       (CKMT.search_dict query port service product version country asn os
          vuln http_title http_status technology page size)
       (CKMT.search_params query port service product version country asn os
          vuln http_title http_status technology page size)) ∧
  (∀ net self query port country,
     sends_params w_trace (CKMT.count net self query port country)
       (CKMT.count_params query port country) ∧
     omits_unset (CKMT.count_dict query port country)
       (CKMT.count_params query port country)) ∧
  (∀ net self query facets,
     sends_params w_trace (CKMT.facets net self query facets)
       (CKMT.facets_params query facets) ∧
     omits_unset (CKMT.facets_dict query facets)
       (CKMT.facets_params query facets)) ∧
  (∀ net self query size,
     sends_params w_trace (CKMT.ports net self query size)
       (CKMT.ports_params query size) ∧
     omits_unset (CKMT.ports_dict query size) (CKMT.ports_params query size)) ∧
  (∀ net query port service product version country asn os vuln
     http_title http_status technology page size,
     sends_params (λ st, w_trace (AsyncCKMT.heap st))
       (AsyncCKMT.search net query port service product version country asn
          os vuln http_title http_status technology page size)
       (AsyncCKMT.search_params query port service product version country
          asn os vuln http_title http_status technology page size) ∧
     omits_unset
       (AsyncCKMT.search_dict query port service product version country asn
          os vuln http_title http_status technology page size)
       (AsyncCKMT.search_params query port service product version country
          asn os vuln http_title http_status technology page size)) ∧
  (∀ net query port country,
     sends_params (λ st, w_trace (AsyncCKMT.heap st))
       (AsyncCKMT.count net query port country)
       (AsyncCKMT.count_params query port country) ∧
     omits_unset (AsyncCKMT.count_dict query port country)
       (AsyncCKMT.count_params query port country)) ∧
  (∀ net query facets,
     sends_params (λ st, w_trace (AsyncCKMT.heap st))
       (AsyncCKMT.facets net query facets)
       (AsyncCKMT.facets_params query facets) ∧
     omits_unset (AsyncCKMT.facets_dict query facets)
       (AsyncCKMT.facets_params query facets)) ∧
  (∀ net query size,
     sends_params (λ st, w_trace (AsyncCKMT.heap st))
       (AsyncCKMT.ports net query size)
       (AsyncCKMT.ports_params query size) ∧
     omits_unset (AsyncCKMT.ports_dict query size)
       (AsyncCKMT.ports_params query size)) ∧
  CKMT.search_params PyNone PyNone PyNone PyNone PyNone PyNone PyNone PyNone
    PyNone PyNone PyNone PyNone default_page default_size =
    [("page", PyInt 1); ("size", PyInt 10)] ∧
  AsyncCKMT.search_params PyNone PyNone PyNone PyNone PyNone PyNone PyNone
    PyNone PyNone PyNone PyNone PyNone default_page default_size =
    [("page", PyInt 1); ("size", PyInt 10)] ∧
  CKMT.count_params PyNone PyNone PyNone = [] ∧
  AsyncCKMT.count_params PyNone PyNone PyNone = [] ∧
  CKMT.facets_params PyNone default_facets =
    [("facets", PyStr "country,port,service,technology")] ∧
  AsyncCKMT.facets_params PyNone default_facets =
    [("facets", PyStr "country,port,service,technology")] ∧
  CKMT.ports_params PyNone default_ports_size = [("size", PyInt 100)] ∧
  AsyncCKMT.ports_params PyNone default_ports_size = [("size", PyInt 100)].
Proof.
  repeat match goal with |- _ ∧ _ => split end; try reflexivity; intros.
  - split; [apply sync_request_sends|].
    apply drop_None_omits_unset, search_dict_NoDup.
  - split; [apply sync_request_sends|].
    apply drop_None_omits_unset, (small_dicts_NoDup query port country).
  - split; [apply sync_request_sends|].
    apply drop_None_omits_unset, (small_dicts_NoDup query facets PyNone).
  - split; [apply sync_request_sends|].
    apply drop_None_omits_unset, (small_dicts_NoDup query size PyNone).
  - split; [apply async_request_sends|].
    apply drop_None_omits_unset, search_dict_NoDup.
  - split; [apply async_request_sends|].
    apply drop_None_omits_unset, (small_dicts_NoDup query port country).
  - split; [apply async_request_sends|].
    apply drop_None_omits_unset, (small_dicts_NoDup query facets PyNone).
  - split; [apply async_request_sends|].
    apply drop_None_omits_unset, (small_dicts_NoDup query size PyNone).
Qed.

Lemma unset_filters_not_sent_witness :
  ("port" ∉ keys (CKMT.search_params (PyStr "nginx") PyNone PyNone PyNone
                    PyNone PyNone PyNone PyNone PyNone PyNone PyNone PyNone
                    (PyInt 1) (PyInt 5))) ∧
  ("query" ∉ keys (AsyncCKMT.count_params PyNone (PyStr "443") (PyStr "DE"))).
Proof.
  pose proof unset_filters_not_sent as (Hsearch & _ & _ & _ & _ & Hcount & _).
  split.
  - refine (proj1 (proj2 (Hsearch (answers (Return search_ok)) example_client
                     (PyStr "nginx") PyNone PyNone PyNone PyNone PyNone PyNone
                     PyNone PyNone PyNone PyNone PyNone (PyInt 1) (PyInt 5)))
              "port" _).
    reflexivity.
  - refine (proj1 (proj2 (Hcount (answers (Return search_ok))
                     PyNone (PyStr "443") (PyStr "DE"))) "query" _).
    reflexivity.
Defined.


(** ** Construction *)

Lemma init_rejects (env : environ) (api_key base_url : option string)
    (timeout : Z) (w : world) :
  truthy (py_or api_key (getenv env "CKMT_API_KEY")) = false →
  CKMT.__init__ env api_key base_url timeout w =
    (Raise (new_ValueError api_key_required), w) ∧
  AsyncCKMT.__init__ env api_key base_url timeout w =
    (Raise (new_ValueError api_key_required), w).
Proof.
  intros H. unfold CKMT.__init__, AsyncCKMT.__init__. rewrite H. done.
Qed.

Lemma init_accepts (env : environ) (api_key base_url : option string)
    (timeout : Z) (w : world) (key : string) :
  py_or api_key (getenv env "CKMT_API_KEY") = Some key → key ≠ "" →
  let stored :=
    rstrip slash
      (py_or_str base_url (getenv_default env "CKMT_BASE_URL" default_base_url)) in
  let sid := fresh (dom (w_sessions w)) in
  CKMT.__init__ env api_key base_url timeout w =
    (Return (CKMT.mk_client key stored timeout sid),
     mk_world (<[sid := mk_session (client_headers key) None false]> (w_sessions w))
       (w_trace w)) ∧
  AsyncCKMT.__init__ env api_key base_url timeout w =
    (Return (AsyncCKMT.mk_client key stored timeout None), w).
Proof.
  intros H Hne. unfold CKMT.__init__, AsyncCKMT.__init__. rewrite H.
  destruct key as [|a key]; [done|]. done.
Qed.

(** A construction either fails on the credentials or stores the
    normalised base URL. *)
Lemma init_cases (env : environ) (api_key base_url : option string)
    (timeout : Z) (w : world) :
  truthy (py_or api_key (getenv env "CKMT_API_KEY")) = false ∨
  ∃ key, py_or api_key (getenv env "CKMT_API_KEY") = Some key ∧ key ≠ "".
Proof.
  destruct (py_or api_key (getenv env "CKMT_API_KEY")) as [[|a k]|];
    [by left| |by left].
  right. by eexists.
Qed.

Lemma py_or_str_configured (env : environ) (base_url : option string) :
  configured_base_url env base_url
    (py_or_str base_url (getenv_default env "CKMT_BASE_URL" default_base_url)).
Proof.
  unfold configured_base_url, getenv_default, default_base_url.
  destruct base_url as [[|a b]|]; cbn.
  - right. destruct (env !! "CKMT_BASE_URL"); [left|right]; done.
  - left. done.
  - right. destruct (env !! "CKMT_BASE_URL"); [left|right]; done.
Qed.

Lemma rstrip_normalised (chosen : string) :
  normalised chosen (rstrip slash chosen).
Proof.
  split; [done|]. split; [apply rstrip_no_trailing|apply rstrip_only_trailing].
Qed.

(** C6.  With no [api_key] argument and [CKMT_API_KEY] unset, constructing
    either client raises [ValueError], which is none of the SDK's errors, and
    leaves the store as it was: no session is created and nothing is sent. *)
Theorem missing_credentials_rejected (env : environ)
    (base_url : option string) (timeout : Z) (w : world) :
  getenv env "CKMT_API_KEY" = None →
  CKMT.__init__ env None base_url timeout w =
    (Raise (new_ValueError api_key_required), w) ∧
  AsyncCKMT.__init__ env None base_url timeout w =
    (Raise (new_ValueError api_key_required), w) ∧
  exc_type (new_ValueError api_key_required) = ValueError ∧
  isinstance (new_ValueError api_key_required) CKMTError = false ∧
  classified (new_ValueError api_key_required) = false.
Proof.
  intros Henv.
  destruct (init_rejects env None base_url timeout w) as [Hs Ha].
  { unfold py_or. cbn. by rewrite Henv. }
  rewrite Hs, Ha. repeat split.
Qed.

Lemma missing_credentials_rejected_witness :
  CKMT.__init__ env_without_key None None 30 empty_world =
    (Raise (new_ValueError api_key_required), empty_world) ∧
  AsyncCKMT.__init__ env_without_key None None 30 empty_world =
    (Raise (new_ValueError api_key_required), empty_world) ∧
  exc_type (new_ValueError api_key_required) = ValueError ∧
  isinstance (new_ValueError api_key_required) CKMTError = false ∧
  classified (new_ValueError api_key_required) = false.
Proof.
  apply (missing_credentials_rejected env_without_key None 30 empty_world).
  reflexivity.
Defined.

(** C10.  An empty-string [api_key] counts as none: construction behaves as
    if it had not been supplied, taking the key from [CKMT_API_KEY], and
    failing with the same [ValueError] when that is unset or empty too. *)
Theorem empty_api_key_is_absent (env : environ) (base_url : option string)
    (timeout : Z) (w : world) :
  CKMT.__init__ env (Some "") base_url timeout w =
    CKMT.__init__ env None base_url timeout w ∧
  AsyncCKMT.__init__ env (Some "") base_url timeout w =
    AsyncCKMT.__init__ env None base_url timeout w ∧
  (getenv env "CKMT_API_KEY" = None ∨ getenv env "CKMT_API_KEY" = Some "" →
   CKMT.__init__ env (Some "") base_url timeout w =
     (Raise (new_ValueError api_key_required), w) ∧
   AsyncCKMT.__init__ env (Some "") base_url timeout w =
     (Raise (new_ValueError api_key_required), w)) ∧
  (∀ key, getenv env "CKMT_API_KEY" = Some key → key ≠ "" →
   ∃ c w' a,
     CKMT.__init__ env (Some "") base_url timeout w = (Return c, w') ∧
     CKMT.api_key c = key ∧
     AsyncCKMT.__init__ env (Some "") base_url timeout w = (Return a, w) ∧
     AsyncCKMT.api_key a = key).
Proof.
  split; [reflexivity|]. split; [reflexivity|]. split.
  - intros H. apply init_rejects. unfold py_or. cbn.
    destruct H as [-> | ->]; reflexivity.
  - intros key Hk Hne.
    destruct (init_accepts env (Some "") base_url timeout w key) as [Hs Ha];
      [exact Hk|exact Hne|].
    rewrite Hs, Ha. by repeat eexists.
Qed.

Lemma empty_api_key_is_absent_witness :
  CKMT.__init__ env_without_key (Some "") None 30 empty_world =
    (Raise (new_ValueError api_key_required), empty_world) ∧
  AsyncCKMT.__init__ env_without_key (Some "") None 30 empty_world =
    (Raise (new_ValueError api_key_required), empty_world).
Proof.
  apply (empty_api_key_is_absent env_without_key None 30 empty_world).
  left. reflexivity.
Defined.

(** C7.  Whenever credentials are available, both constructors return a
    client, and the client stores the configured base URL (the supplied one,
    else [CKMT_BASE_URL], else the default) without its trailing slashes;
    every request, in either mode, goes to the stored base URL followed by
    the endpoint path.  Constructed with ["https://example.com/"], either
    client stores ["https://example.com"] and its [search] goes to
    ["https://example.com/v1/search"]. *)
Theorem base_url_normalised (env : environ) (api_key base_url : option string)
    (timeout : Z) (w : world) :
  (truthy (py_or api_key (getenv env "CKMT_API_KEY")) = true →
   ∃ c w' a chosen,
     CKMT.__init__ env api_key base_url timeout w = (Return c, w') ∧
     AsyncCKMT.__init__ env api_key base_url timeout w = (Return a, w) ∧
     configured_base_url env base_url chosen ∧
     normalised chosen (CKMT.base_url c) ∧
     normalised chosen (AsyncCKMT.base_url a)) ∧
  (∀ c w', CKMT.__init__ env api_key base_url timeout w = (Return c, w') →
     ∃ chosen, configured_base_url env base_url chosen ∧
               normalised chosen (CKMT.base_url c)) ∧
  (∀ a w', AsyncCKMT.__init__ env api_key base_url timeout w = (Return a, w') →
     ∃ chosen, configured_base_url env base_url chosen ∧
               normalised chosen (AsyncCKMT.base_url a)) ∧
  (∀ net self method endpoint params json headers w0,
     ∃ ev, w_trace (CKMT._request net self method endpoint params json
                      headers w0).2 = (w_trace w0 ++ [ev])%list ∧
           req_url (ev_request ev) = CKMT.base_url self ++ endpoint) ∧
  (∀ net method endpoint params json headers st,
     ∃ ev, w_trace (AsyncCKMT.heap
                      (AsyncCKMT._request net method endpoint params json
                         headers st).2) =
             (w_trace (AsyncCKMT.heap st) ++ [ev])%list ∧
           req_url (ev_request ev) =
             AsyncCKMT.base_url (AsyncCKMT.self st) ++ endpoint) ∧
  (∀ net,
     CKMT.__init__ env_with_key None (Some "https://example.com/") 30
       empty_world = (Return example_client, example_world) ∧
     CKMT.base_url example_client = "https://example.com" ∧
     map req_url
       (requests_sent
          (CKMT.search net example_client (PyStr "nginx") PyNone PyNone
             PyNone PyNone PyNone PyNone PyNone PyNone PyNone PyNone PyNone
             (PyInt 1) (PyInt 5) example_world).2) =
       ["https://example.com/v1/search"]) ∧
  (∀ net,
     AsyncCKMT.__init__ env_with_key None (Some "https://example.com/") 30
       empty_world =
       (Return (AsyncCKMT.self example_state), AsyncCKMT.heap example_state) ∧
     AsyncCKMT.base_url (AsyncCKMT.self example_state) = "https://example.com" ∧
     map req_url
       (requests_sent
          (AsyncCKMT.heap
             (AsyncCKMT.search net (PyStr "nginx") PyNone PyNone PyNone
                PyNone PyNone PyNone PyNone PyNone PyNone PyNone PyNone
                (PyInt 1) (PyInt 5) example_state).2)) =
       ["https://example.com/v1/search"]).
Proof.
  repeat match goal with |- _ ∧ _ => split end.
  - intros Hkey.
    destruct (init_cases env api_key base_url timeout w) as [Hno|(key & Hk & Hne)];
      [congruence|].
    destruct (init_accepts env api_key base_url timeout w key Hk Hne) as [Hs Ha].
    cbv zeta in Hs, Ha.
    do 4 eexists. split; [exact Hs|]. split; [exact Ha|]. cbn.
    split; [apply py_or_str_configured|].
    split; apply rstrip_normalised.
  - intros c w' H.
    destruct (init_cases env api_key base_url timeout w) as [Hno|(key & Hk & Hne)].
    + destruct (init_rejects env api_key base_url timeout w Hno) as [Hs _].
      congruence.
    + destruct (init_accepts env api_key base_url timeout w key Hk Hne) as [Hs _].
      rewrite Hs in H. injection H as <- <-. cbn.
      eexists. split; [apply py_or_str_configured|apply rstrip_normalised].
  - intros a w' H.
    destruct (init_cases env api_key base_url timeout w) as [Hno|(key & Hk & Hne)].
    + destruct (init_rejects env api_key base_url timeout w Hno) as [_ Ha].
      congruence.
    + destruct (init_accepts env api_key base_url timeout w key Hk Hne) as [_ Ha].
      rewrite Ha in H. injection H as <- <-. cbn.
      eexists. split; [apply py_or_str_configured|apply rstrip_normalised].
  - intros. rewrite sync_request_trace. cbn. eexists. split; reflexivity.
  - intros.
    destruct (AsyncCKMT.session (AsyncCKMT.self st)) as [sid|] eqn:E.
    + rewrite (async_request_trace_stored _ _ sid) by done.
      eexists. split; reflexivity.
    + rewrite async_request_after_ensure, (ensure_session_creates _ E).
      cbn [snd].
      erewrite async_request_trace_stored by reflexivity.
      eexists. split; reflexivity.
  - intros net. split; [by vm_compute|]. split; [reflexivity|].
    unfold CKMT.search, requests_sent. rewrite sync_request_trace.
    reflexivity.
  - intros net. split; [by vm_compute|]. split; [reflexivity|].
    unfold AsyncCKMT.search, requests_sent.
    rewrite async_request_after_ensure.
    rewrite (ensure_session_creates example_state eq_refl). cbn [snd].
    erewrite async_request_trace_stored by reflexivity.
    reflexivity.
Qed.

Lemma base_url_normalised_witness :
  ∃ c w' a chosen,
    CKMT.__init__ env_with_key None (Some "https://example.com/") 30
      empty_world = (Return c, w') ∧
    AsyncCKMT.__init__ env_with_key None (Some "https://example.com/") 30
      empty_world = (Return a, empty_world) ∧
    configured_base_url env_with_key (Some "https://example.com/") chosen ∧
    normalised chosen (CKMT.base_url c) ∧
    normalised chosen (AsyncCKMT.base_url a).
Proof.
  apply (proj1 (base_url_normalised env_with_key None
                  (Some "https://example.com/") 30 empty_world)).
  reflexivity.
Defined.

(** ** The session of the suspending client: lifecycle *)

(** C8, as stated, fails: a client that holds a session and is closed sends
    its next request through that same, closed session. *)
Lemma closed_session_is_reused :
  AsyncCKMT.session (AsyncCKMT.self example_state_in_use) = Some 0%nat ∧
  map (λ ev, (ev_session ev, ev_closed ev))
    (w_trace (AsyncCKMT.heap
       (AsyncCKMT.host (answers (Return search_ok)) "8.8.8.8"
          (AsyncCKMT.close example_state_in_use).2).2)) = [(0%nat, true)] ∧
  ¬ reopened_after_close (answers (Return search_ok)) example_state_in_use.
Proof.
  split; [by vm_compute|]. split; [by vm_compute|].
  intros H.
  specialize (H "GET" "/v1/search/host/8.8.8.8" None None None
                (Sent 0 true (mk_request "GET"
                   "https://example.com/v1/search/host/8.8.8.8"
                   None None None None))).
  discriminate H. by vm_compute.
Qed.

(** C8, amended.  A request of a client that stores no session creates a
    fresh, open one and goes through it.  [close()] closes the stored
    session and leaves it stored; [_ensure_session] then changes nothing, and
    the next request goes through that same closed session.  A fresh open
    session is installed again only by [__aenter__]. *)
Theorem session_lifecycle (net : transport) (st : AsyncCKMT.state)
    (method endpoint : string) (params : option pydict)
    (json : option json_value) (headers : option (list (string * string))) :
  let rq :=
    mk_request method (AsyncCKMT.base_url (AsyncCKMT.self st) ++ endpoint)
      params json headers None in
  let opened :=
    mk_session (client_headers (AsyncCKMT.api_key (AsyncCKMT.self st)))
      (Some (AsyncCKMT.timeout (AsyncCKMT.self st))) false in
  (AsyncCKMT.session (AsyncCKMT.self st) = None →
   ∃ sid,
     let st' := (AsyncCKMT._request net method endpoint params json headers st).2 in
     w_sessions (AsyncCKMT.heap st) !! sid = None ∧
     AsyncCKMT.session (AsyncCKMT.self st') = Some sid ∧
     w_sessions (AsyncCKMT.heap st') !! sid = Some opened ∧
     w_trace (AsyncCKMT.heap st') =
       (w_trace (AsyncCKMT.heap st) ++ [Sent sid false rq])%list) ∧
  (∀ sid s,
     AsyncCKMT.session (AsyncCKMT.self st) = Some sid →
     w_sessions (AsyncCKMT.heap st) !! sid = Some s →
     let st1 := (AsyncCKMT.close st).2 in
     AsyncCKMT.session (AsyncCKMT.self st1) = Some sid ∧
     w_sessions (AsyncCKMT.heap st1) !! sid =
       Some (mk_session (s_headers s) (s_timeout s) true) ∧
     AsyncCKMT._ensure_session st1 = (Return tt, st1) ∧
     w_trace (AsyncCKMT.heap
                (AsyncCKMT._request net method endpoint params json headers st1).2) =
       (w_trace (AsyncCKMT.heap st) ++ [Sent sid true rq])%list) ∧
  (∃ sid,
     let st' := (AsyncCKMT.__aenter__ st).2 in
     w_sessions (AsyncCKMT.heap st) !! sid = None ∧
     AsyncCKMT.session (AsyncCKMT.self st') = Some sid ∧
     w_sessions (AsyncCKMT.heap st') !! sid = Some opened).
Proof.
  cbv zeta. repeat match goal with |- _ ∧ _ => split end.
  - intros E. exists (fresh (dom (w_sessions (AsyncCKMT.heap st)))).
    rewrite async_request_after_ensure, (ensure_session_creates _ E).
    cbn [snd].
    erewrite async_request_trace_stored by reflexivity. cbn.
    unfold deref. cbn. rewrite lookup_insert_eq. cbn.
    repeat split. apply fresh_session_unused.
  - intros sid s E Hs.
    rewrite (close_marks_closed _ _ E). cbn [snd].
    assert (alter (λ s0, mk_session (s_headers s0) (s_timeout s0) true) sid
              (w_sessions (AsyncCKMT.heap st)) !! sid =
            Some (mk_session (s_headers s) (s_timeout s) true)) as Hclosed.
    { rewrite lookup_alter_eq, Hs. reflexivity. }
    repeat split.
    + exact E.
    + exact Hclosed.
    + by apply (ensure_session_keeps _ sid).
    + rewrite (async_request_trace_stored _ _ sid) by exact E. cbn.
      unfold deref. cbn. rewrite Hclosed. reflexivity.
  - exists (fresh (dom (w_sessions (AsyncCKMT.heap st)))).
    rewrite aenter_installs. cbn. rewrite lookup_insert_eq.
    repeat split. apply fresh_session_unused.
Qed.

Lemma session_lifecycle_witness :
  ∃ sid,
    let st' := (AsyncCKMT._request (answers (Return search_ok))
                  "GET" "/v1/search/stats" None None None example_state).2 in
    w_sessions (AsyncCKMT.heap example_state) !! sid = None ∧
    AsyncCKMT.session (AsyncCKMT.self st') = Some sid ∧
    w_sessions (AsyncCKMT.heap st') !! sid =
      Some (mk_session (client_headers "secret") (Some 30) false) ∧
    w_trace (AsyncCKMT.heap st') =
      [Sent sid false
         (mk_request "GET" "https://example.com/v1/search/stats"
            None None None None)].
Proof.
  refine (proj1 (session_lifecycle (answers (Return search_ok)) example_state
                   "GET" "/v1/search/stats" None None None) _).
  reflexivity.
Defined.

(** ** The Endpoint Facade: methods and paths *)

Lemma sync_request_sent (net : transport) (self : CKMT.client)
    (method endpoint : string) (params : option pydict)
    (json : option json_value) (headers : option (list (string * string)))
    (w : world) :
  requests_sent (CKMT._request net self method endpoint params json headers w).2 =
  (requests_sent w ++
   [mk_request method (CKMT.base_url self ++ endpoint) params json headers
      (Some (CKMT.timeout self))])%list.
Proof.
  rewrite sync_request_trace. unfold requests_sent. cbn.
  by rewrite map_app.
Qed.

Lemma async_request_sent (net : transport) (st : AsyncCKMT.state)
    (method endpoint : string) (params : option pydict)
    (json : option json_value) (headers : option (list (string * string))) :
  requests_sent
    (AsyncCKMT.heap
       (AsyncCKMT._request net method endpoint params json headers st).2) =
  (requests_sent (AsyncCKMT.heap st) ++
   [mk_request method (AsyncCKMT.base_url (AsyncCKMT.self st) ++ endpoint)
      params json headers None])%list.
Proof.
  unfold requests_sent.
  destruct (AsyncCKMT.session (AsyncCKMT.self st)) as [sid|] eqn:E.
  - rewrite (async_request_trace_stored _ _ sid) by done. cbn.
    by rewrite map_app.
  - rewrite async_request_after_ensure, (ensure_session_creates _ E).
    cbn [snd].
    erewrite async_request_trace_stored by reflexivity. cbn.
    by rewrite map_app.
Qed.

(** The blocking facade: every operation is one [GET] to its fixed path
    under the stored base URL; [host] puts the address in the path and sends
    no query parameters, [services] and [stats] send none either. *)
Theorem sync_facade_requests (net : transport) (self : CKMT.client)
    (w : world) :
  let sent (call : M world json_value) path params :=
    requests_sent (call w).2 =
    (requests_sent w ++
     [mk_request "GET" (CKMT.base_url self ++ path) params None None
        (Some (CKMT.timeout self))])%list in
  (∀ query port service product version country asn os vuln http_title
     http_status technology page size,
     sent (CKMT.search net self query port service product version country
             asn os vuln http_title http_status technology page size)
       "/v1/search"
       (Some (CKMT.search_params query port service product version country
                asn os vuln http_title http_status technology page size))) ∧
  (∀ ip, sent (CKMT.host net self ip) ("/v1/search/host/" ++ ip) None) ∧
  (∀ query port country,
     sent (CKMT.count net self query port country) "/v1/search/count"
       (Some (CKMT.count_params query port country))) ∧
  (∀ query facets,
     sent (CKMT.facets net self query facets) "/v1/search/facets"
       (Some (CKMT.facets_params query facets))) ∧
  (∀ query size,
     sent (CKMT.ports net self query size) "/v1/search/ports"
       (Some (CKMT.ports_params query size))) ∧
  sent (CKMT.services net self) "/v1/search/services" None ∧
  sent (CKMT.stats net self) "/v1/search/stats" None.
Proof.
  cbv zeta.
  repeat match goal with |- _ ∧ _ => split end; intros;
    apply sync_request_sent.
Qed.

(** The suspending facade sends the same requests, without a per-request
    timeout. *)
Theorem async_facade_requests (net : transport) (st : AsyncCKMT.state) :
  let sent (call : M AsyncCKMT.state json_value) path params :=
    requests_sent (AsyncCKMT.heap (call st).2) =
    (requests_sent (AsyncCKMT.heap st) ++
     [mk_request "GET" (AsyncCKMT.base_url (AsyncCKMT.self st) ++ path)
        params None None None])%list in
  (∀ query port service product version country asn os vuln http_title
     http_status technology page size,
     sent (AsyncCKMT.search net query port service product version country
             asn os vuln http_title http_status technology page size)
       "/v1/search"
       (Some (AsyncCKMT.search_params query port service product version
                country asn os vuln http_title http_status technology
                page size))) ∧
  (∀ ip, sent (AsyncCKMT.host net ip) ("/v1/search/host/" ++ ip) None) ∧
  (∀ query port country,
     sent (AsyncCKMT.count net query port country) "/v1/search/count"
       (Some (AsyncCKMT.count_params query port country))) ∧
  (∀ query facets,
     sent (AsyncCKMT.facets net query facets) "/v1/search/facets"
       (Some (AsyncCKMT.facets_params query facets))) ∧
  (∀ query size,
     sent (AsyncCKMT.ports net query size) "/v1/search/ports"
       (Some (AsyncCKMT.ports_params query size))) ∧
  sent (AsyncCKMT.services net) "/v1/search/services" None ∧
  sent (AsyncCKMT.stats net) "/v1/search/stats" None.
Proof.
  cbv zeta.
  repeat match goal with |- _ ∧ _ => split end; intros;
    apply async_request_sent.
Qed.

(** The scenario of the specification: [search(query="nginx", page=1,
    size=5)] sends [GET /v1/search] with [query=nginx], [page=1] and
    [size=5], in that order, and a mocked 200 response with the body
    [{"total": 42, "matches": []}] comes back as decoded. *)
Theorem search_scenario :
  CKMT.search (answers (Return search_ok)) example_client (PyStr "nginx")
    PyNone PyNone PyNone PyNone PyNone PyNone PyNone PyNone PyNone PyNone
    PyNone (PyInt 1) (PyInt 5) example_world =
  (Return search_result,
   mk_world (w_sessions example_world)
     [Sent 0 false
        (mk_request "GET" "https://example.com/v1/search"
           (Some [("query", PyStr "nginx"); ("page", PyInt 1);
                  ("size", PyInt 5)])
           None None (Some 30))]).
Proof.
  unfold CKMT.search.
  rewrite (surjective_pairing (CKMT._request _ _ _ _ _ _ _ _)).
  rewrite sync_request_trace. unfold search_ok.
  rewrite sync_request_response. reflexivity.
Qed.

(** ** The error taxonomy *)

(** [ckmt/exceptions.py]: the classes caught by [except APIError] are
    [APIError] and its four subclasses, [except CKMTError] catches these and
    [CKMTError] itself, and a handler for one of the four specific errors
    catches none of the other three.  Neither handler catches any other
    class: not the [ValueError] of a construction, nor an exception of a
    library. *)
Theorem taxonomy_catches (c : exc_class) :
  let specific :=
    [AuthenticationError; RateLimitError; NotFoundError; ValidationError] in
  (issubclass c APIError = true ↔ c ∈ APIError :: specific) ∧
  (issubclass c CKMTError = true ↔ c ∈ CKMTError :: APIError :: specific) ∧
  (∀ d, d ∈ specific → (issubclass c d = true ↔ c = d)) ∧
  issubclass c Exception = true.
Proof.
  cbv zeta. repeat split.
  - destruct c; vm_compute; (discriminate || intros _; set_solver).
  - intros H. repeat (apply elem_of_cons in H as [->|H]); try reflexivity.
    by apply elem_of_nil in H.
  - destruct c; vm_compute; (discriminate || intros _; set_solver).
  - intros H. repeat (apply elem_of_cons in H as [->|H]); try reflexivity.
    by apply elem_of_nil in H.
  - intros Hs. repeat (apply elem_of_cons in H as [->|H]);
      try (by apply elem_of_nil in H);
      destruct c; vm_compute in Hs; (discriminate || reflexivity).
  - intros ->. repeat (apply elem_of_cons in H as [->|H]); try reflexivity.
    by apply elem_of_nil in H.
  - destruct c; reflexivity.
Qed.

(** ** The Request Executor: what passes through *)

(** An exception raised during the exchange that is not of the library's
    base class leaves [_request] as it is: neither wrapped nor replaced.
    This is how [RuntimeError("Session is closed")] and
    [asyncio.TimeoutError] reach the caller of the suspending client. *)
Theorem foreign_errors_pass_through (self : CKMT.client)
    (st : AsyncCKMT.state) (w : world) (method endpoint : string)
    (params : option pydict) (json : option json_value)
    (headers : option (list (string * string))) (e : exc) :
  (isinstance e requests_RequestException = false →
   (CKMT._request (answers (Raise e)) self method endpoint params json headers w).1 =
     Raise e) ∧
  (isinstance e aiohttp_ClientError = false →
   (AsyncCKMT._request (answers (Raise e)) method endpoint params json headers st).1 =
     Raise e).
Proof.
  rewrite sync_request_failure, async_request_failure.
  split; intros ->; reflexivity.
Qed.

Lemma foreign_errors_pass_through_witness :
  (AsyncCKMT._request
     (answers (Raise (mk_exc RuntimeError "Session is closed" None None)))
     "GET" "/v1/search/stats" None None None example_state).1 =
    Raise (mk_exc RuntimeError "Session is closed" None None).
Proof.
  apply (proj2 (foreign_errors_pass_through example_client example_state
                  example_world "GET" "/v1/search/stats" None None None
                  (mk_exc RuntimeError "Session is closed" None None))).
  reflexivity.
Defined.

(** ** Construction: the two clients side by side *)

(** The two constructors decide alike.  Either both raise the [ValueError]
    and touch nothing, or both succeed with the same non-empty key, the same
    base URL and the given timeout; the blocking client then owns a session
    that was not there before, open, with the two headers, while the
    suspending one stores none and leaves the store as it was.  Nothing is
    sent in either case, and a non-empty [api_key] argument is the key,
    whatever the environment holds. *)
Theorem constructors_agree (env : environ) (api_key base_url : option string)
    (timeout : Z) (w : world) :
  (CKMT.__init__ env api_key base_url timeout w =
     (Raise (new_ValueError api_key_required), w) ∧
   AsyncCKMT.__init__ env api_key base_url timeout w =
     (Raise (new_ValueError api_key_required), w)) ∨
  (∃ c w1 a,
     CKMT.__init__ env api_key base_url timeout w = (Return c, w1) ∧
     AsyncCKMT.__init__ env api_key base_url timeout w = (Return a, w) ∧
     CKMT.api_key c = AsyncCKMT.api_key a ∧
     CKMT.api_key c ≠ "" ∧
     (truthy api_key = true → api_key = Some (CKMT.api_key c)) ∧
     CKMT.base_url c = AsyncCKMT.base_url a ∧
     CKMT.timeout c = timeout ∧ AsyncCKMT.timeout a = timeout ∧
     AsyncCKMT.session a = None ∧
     w_sessions w !! CKMT.session c = None ∧
     w_sessions w1 =
       <[CKMT.session c :=
           mk_session (client_headers (CKMT.api_key c)) None false]>
         (w_sessions w) ∧
     w_trace w1 = w_trace w).
Proof.
  destruct (init_cases env api_key base_url timeout w) as [Hno|(key & Hk & Hne)].
  - left. by apply init_rejects.
  - right.
    destruct (init_accepts env api_key base_url timeout w key Hk Hne) as [Hs Ha].
    do 3 eexists. split; [exact Hs|]. split; [exact Ha|]. cbn.
    repeat split; try done.
    + intros Ht. unfold py_or in Hk. by rewrite Ht in Hk.
    + apply fresh_session_unused.
Qed.

(** A request of a freshly constructed blocking client goes through the
    session the constructor made: open, with [Authorization: Bearer <key>]
    and the [User-Agent] on it, and with the constructor's timeout on the
    request.  The request leaves every session as it was. *)
Theorem constructed_client_requests (env : environ)
    (api_key base_url : option string) (timeout : Z) (w w1 : world)
    (c : CKMT.client) (net : transport) (method endpoint : string)
    (params : option pydict) (json : option json_value)
    (headers : option (list (string * string))) :
  CKMT.__init__ env api_key base_url timeout w = (Return c, w1) →
  let w2 := (CKMT._request net c method endpoint params json headers w1).2 in
  deref w1 (CKMT.session c) =
    mk_session [("Authorization", "Bearer " ++ CKMT.api_key c);
                ("User-Agent", "ckmt-sdk/1.0.0")] None false ∧
  w_sessions w2 = w_sessions w1 ∧
  w_trace w2 =
    (w_trace w ++
     [Sent (CKMT.session c) false
        (mk_request method (CKMT.base_url c ++ endpoint) params json headers
           (Some timeout))])%list.
Proof.
  intros Hinit.
  destruct (constructors_agree env api_key base_url timeout w)
    as [[Hs _]|(c' & w1' & a & Hs & _ & _ & _ & _ & _ & Ht & _ & _ & _ & Hw & Htr)].
  { congruence. }
  rewrite Hs in Hinit. injection Hinit as -> ->.
  assert (deref w1 (CKMT.session c) =
          mk_session (client_headers (CKMT.api_key c)) None false) as Hd.
  { unfold deref. rewrite Hw, lookup_insert_eq. reflexivity. }
  cbv zeta. rewrite sync_request_trace. cbn. rewrite Hd, Htr, Ht.
  repeat split.
Qed.

Lemma constructed_client_requests_witness :
  let w2 := (CKMT._request (answers (Return search_ok)) example_client
               "GET" "/v1/search/stats" None None None example_world).2 in
  deref example_world (CKMT.session example_client) =
    mk_session [("Authorization", "Bearer secret");
                ("User-Agent", "ckmt-sdk/1.0.0")] None false ∧
  w_sessions w2 = w_sessions example_world ∧
  w_trace w2 =
    [Sent 0 false
       (mk_request "GET" "https://example.com/v1/search/stats" None None
          None (Some 30))].
Proof.
  apply (constructed_client_requests env_with_key None
           (Some "https://example.com/") 30 empty_world example_world
           example_client (answers (Return search_ok))
           "GET" "/v1/search/stats" None None None).
  by vm_compute.
Defined.

(** ** Base URL normalisation: edge cases *)

Lemma rstrip_replicate (c : ascii) (n : nat) :
  rstrip c (replicate_char n c) = "".
Proof.
  induction n as [|n IH]; [done|]. cbn. rewrite IH.
  by rewrite Ascii.eqb_refl.
Qed.

Lemma rstrip_app_replicate (c : ascii) (s : string) (n : nat) :
  rstrip c (s ++ replicate_char n c) = rstrip c s.
Proof.
  induction s as [|a t IH].
  - apply rstrip_replicate.
  - change (rstrip c (String a (t ++ replicate_char n c)) =
            rstrip c (String a t)).
    cbn [rstrip]. by rewrite IH.
Qed.

(** Normalising is idempotent and sees only what precedes the trailing
    slashes: two base URLs that differ in their trailing slashes are stored
    alike, a URL without a trailing slash is stored as it is, and the stored
    URL is empty exactly when the configured one is made of slashes only (a
    request then goes to the bare endpoint path). *)
Theorem normalisation_edges (s : string) :
  rstrip slash (rstrip slash s) = rstrip slash s ∧
  (∀ n, rstrip slash (s ++ replicate_char n slash) = rstrip slash s) ∧
  (last_char s ≠ Some slash → rstrip slash s = s) ∧
  (rstrip slash s = "" ↔ ∃ n, s = replicate_char n slash).
Proof.
  repeat split.
  - apply rstrip_fixed, rstrip_no_trailing.
  - intros n. apply rstrip_app_replicate.
  - apply rstrip_fixed.
  - intros H. destruct (rstrip_only_trailing slash s) as [n Hn].
    exists n. by rewrite H in Hn.
  - intros [n ->]. apply rstrip_replicate.
Qed.

Lemma normalisation_edges_witness :
  rstrip slash "https://example.com" = "https://example.com".
Proof.
  apply (proj1 (proj2 (proj2 (normalisation_edges "https://example.com")))).
  by vm_compute.
Defined.

(** ** The suspending client: what each operation does to the state *)

Lemma run_op_cases (net : transport) (st : AsyncCKMT.state) (op : async_op) :
  run_op net st op =
  match op, AsyncCKMT.session (AsyncCKMT.self st) with
  | op_aenter, _ => after_install st
  | op_ensure_session, None => after_install st
  | op_ensure_session, Some _ => st
  | (op_close | op_aexit), Some sid => after_close st sid
  | (op_close | op_aexit), None => st
  | op_request method endpoint params json headers, Some sid =>
      after_send st sid
        (mk_request method (AsyncCKMT.base_url (AsyncCKMT.self st) ++ endpoint)
           params json headers None)
  | op_request method endpoint params json headers, None =>
      after_send (after_install st)
        (fresh (dom (w_sessions (AsyncCKMT.heap st))))
        (mk_request method (AsyncCKMT.base_url (AsyncCKMT.self st) ++ endpoint)
           params json headers None)
  end.
Proof.
  destruct op; cbn [run_op].
  - by rewrite aenter_installs.
  - destruct st as [[k b t [sid|]] w]; reflexivity.
  - destruct (AsyncCKMT.session (AsyncCKMT.self st)) as [sid|] eqn:E.
    + by rewrite (close_marks_closed _ _ E).
    + by rewrite (close_without_session _ E).
  - destruct (AsyncCKMT.session (AsyncCKMT.self st)) as [sid|] eqn:E.
    + by rewrite (ensure_session_keeps _ _ E).
    + by rewrite (ensure_session_creates _ E).
  - destruct (AsyncCKMT.session (AsyncCKMT.self st)) as [sid|] eqn:E.
    + by rewrite (async_request_trace_stored _ _ sid).
    + rewrite async_request_after_ensure, (ensure_session_creates _ E).
      cbn [snd]. by erewrite async_request_trace_stored.
Qed.

Lemma fresh_not_stored (w : world) (sid : nat) (s : session_obj) :
  w_sessions w !! sid = Some s → fresh (dom (w_sessions w)) ≠ sid.
Proof.
  intros H <-. by rewrite fresh_session_unused in H.
Qed.

(** ** The suspending client: invariants over any sequence of operations *)

(** Whatever a caller does with a suspending client ([__aenter__],
    [__aexit__], [close], requests, in any order and number, failing or
    not), its key, base URL and timeout stay what the constructor stored. *)
Theorem configuration_is_immutable (net : transport) (ops : list async_op)
    (st : AsyncCKMT.state) :
  let st' := run_ops net ops st in
  AsyncCKMT.api_key (AsyncCKMT.self st') = AsyncCKMT.api_key (AsyncCKMT.self st) ∧
  AsyncCKMT.base_url (AsyncCKMT.self st') = AsyncCKMT.base_url (AsyncCKMT.self st) ∧
  AsyncCKMT.timeout (AsyncCKMT.self st') = AsyncCKMT.timeout (AsyncCKMT.self st).
Proof.
  cbv zeta. revert st. induction ops as [|op ops IH]; intros st; [done|].
  cbn [run_ops fold_left]. fold (run_ops net ops (run_op net st op)).
  destruct (IH (run_op net st op)) as (-> & -> & ->).
  rewrite run_op_cases.
  destruct op, (AsyncCKMT.session (AsyncCKMT.self st)); done.
Qed.

Lemma session_well_formed_step (net : transport) (st : AsyncCKMT.state)
    (op : async_op) :
  session_well_formed st → session_well_formed (run_op net st op).
Proof.
  intros Hwf. rewrite run_op_cases.
  assert (session_well_formed (after_install st)) as Hinst.
  { intros sid [= <-]. eexists. cbn. rewrite lookup_insert_eq. done. }
  assert (∀ sid, AsyncCKMT.session (AsyncCKMT.self st) = Some sid →
                 session_well_formed (after_close st sid)) as Hclose.
  { intros sid E sid' E'. cbn in E'. rewrite E in E'. injection E' as <-.
    destruct (Hwf sid E) as (s & Hs & Hh & Ht).
    eexists. cbn. rewrite lookup_alter_eq, Hs. done. }
  destruct op, (AsyncCKMT.session (AsyncCKMT.self st)) as [sid|] eqn:E;
    try done; by apply Hclose.
Qed.

(** A stored session reference never dangles: from a constructed client
    on, through any operations, the stored session exists in the store and
    carries that client's [Authorization] and [User-Agent] headers and its
    timeout. *)
Theorem stored_session_stays_well_formed (net : transport)
    (ops : list async_op) (st : AsyncCKMT.state) :
  session_well_formed st → session_well_formed (run_ops net ops st).
Proof.
  revert st. induction ops as [|op ops IH]; intros st Hwf; [done|].
  cbn [run_ops fold_left]. apply IH. by apply session_well_formed_step.
Qed.

Lemma stored_session_stays_well_formed_witness :
  session_well_formed
    (run_ops (answers (Raise aiohttp_refused))
       [op_request "GET" "/v1/search/stats" None None None; op_close;
        op_aenter; op_request "GET" "/v1/search/services" None None None;
        op_aexit]
       example_state).
Proof.
  apply stored_session_stays_well_formed.
  intros sid H. discriminate H.
Defined.

Lemma sessions_persist_step (net : transport) (st : AsyncCKMT.state)
    (op : async_op) (sid : nat) (s : session_obj) :
  w_sessions (AsyncCKMT.heap st) !! sid = Some s →
  ∃ s', w_sessions (AsyncCKMT.heap (run_op net st op)) !! sid = Some s' ∧
        s_headers s' = s_headers s ∧ s_timeout s' = s_timeout s ∧
        (s_closed s = true → s_closed s' = true).
Proof.
  intros Hs. rewrite run_op_cases.
  pose proof (fresh_not_stored _ _ _ Hs) as Hfresh.
  assert (∀ sid0, ∃ s',
            alter (λ s0, mk_session (s_headers s0) (s_timeout s0) true) sid0
              (w_sessions (AsyncCKMT.heap st)) !! sid = Some s' ∧
            s_headers s' = s_headers s ∧ s_timeout s' = s_timeout s ∧
            (s_closed s = true → s_closed s' = true)) as Hclose.
  { intros sid0. destruct (decide (sid0 = sid)) as [->|Hne].
    - eexists. rewrite lookup_alter_eq, Hs. done.
    - eexists. rewrite lookup_alter_ne by done. done. }
  destruct op, (AsyncCKMT.session (AsyncCKMT.self st)) as [sid0|];
    cbn; rewrite ?lookup_insert_ne by done; eauto.
Qed.

(** No operation removes, reopens or rewrites a session: a session that
    exists keeps existing with its headers and timeout, and once closed it
    stays closed. *)
Theorem sessions_persist (net : transport) (ops : list async_op)
    (st : AsyncCKMT.state) (sid : nat) (s : session_obj) :
  w_sessions (AsyncCKMT.heap st) !! sid = Some s →
  ∃ s', w_sessions (AsyncCKMT.heap (run_ops net ops st)) !! sid = Some s' ∧
        s_headers s' = s_headers s ∧ s_timeout s' = s_timeout s ∧
        (s_closed s = true → s_closed s' = true).
Proof.
  revert st s. induction ops as [|op ops IH]; intros st s Hs.
  - exists s. done.
  - cbn [run_ops fold_left].
    destruct (sessions_persist_step net st op sid s Hs) as (s1 & H1 & Hh & Ht & Hc).
    destruct (IH _ _ H1) as (s2 & H2 & Hh2 & Ht2 & Hc2).
    exists s2. repeat split; [done|congruence|congruence|auto].
Qed.

Lemma sessions_persist_witness :
  ∃ s', w_sessions
          (AsyncCKMT.heap
             (run_ops (answers (Return search_ok))
                [op_close; op_request "GET" "/v1/search/stats" None None None;
                 op_aenter]
                example_state_in_use)) !! 0%nat = Some s' ∧
        s_headers s' = client_headers "secret" ∧
        s_timeout s' = Some 30 ∧
        (false = true → s_closed s' = true).
Proof.
  apply (sessions_persist (answers (Return search_ok))
           [op_close; op_request "GET" "/v1/search/stats" None None None;
            op_aenter]
           example_state_in_use 0%nat
           (mk_session (client_headers "secret") (Some 30) false)).
  by vm_compute.
Defined.

Lemma run_op_base_url (net : transport) (st : AsyncCKMT.state) (op : async_op) :
  AsyncCKMT.base_url (AsyncCKMT.self (run_op net st op)) =
  AsyncCKMT.base_url (AsyncCKMT.self st).
Proof.
  rewrite run_op_cases.
  destruct op, (AsyncCKMT.session (AsyncCKMT.self st)); done.
Qed.

Lemma calls_step (net : transport) (st : AsyncCKMT.state) (op : async_op) :
  ∃ evs,
    w_trace (AsyncCKMT.heap (run_op net st op)) =
      (w_trace (AsyncCKMT.heap st) ++ evs)%list ∧
    map ev_request evs =
      omap (request_of (AsyncCKMT.base_url (AsyncCKMT.self st))) [op] ∧
    (never_closes op = true → stored_open st →
     stored_open (run_op net st op) ∧
     Forall (λ ev, ev_closed ev = false) evs).
Proof.
  rewrite run_op_cases.
  assert (stored_open (after_install st)) as Hinst.
  { intros sid [= <-]. eexists. cbn. by rewrite lookup_insert_eq. }
  destruct op, (AsyncCKMT.session (AsyncCKMT.self st)) as [sid|] eqn:E; cbn.
  all: try (exists []; rewrite app_nil_r; repeat split; by auto).
  - eexists. split; [reflexivity|]. split; [reflexivity|].
    intros _ Hopen. split; [exact Hopen|].
    destruct (Hopen sid E) as (s & Hs & Hc).
    unfold deref. rewrite Hs. cbn. by repeat constructor.
  - eexists. split; [reflexivity|]. split; [reflexivity|].
    intros _ _. split; [exact Hinst|].
    unfold deref. cbn. rewrite lookup_insert_eq. cbn. by repeat constructor.
Qed.

(** Over any sequence of operations the client calls [session.request]
    once for each request issued, in order, with the base URL followed by the
    endpoint: no call is repeated, whatever its outcome, and [__aenter__],
    [__aexit__], [close] and [_ensure_session] make none.  As long as the
    sequence holds no [close] or [__aexit__] and starts with no session or an
    open one, every call is made on an open session. *)
Theorem session_request_calls_as_issued (net : transport)
    (ops : list async_op) (st : AsyncCKMT.state) :
  ∃ evs,
    w_trace (AsyncCKMT.heap (run_ops net ops st)) =
      (w_trace (AsyncCKMT.heap st) ++ evs)%list ∧
    map ev_request evs =
      omap (request_of (AsyncCKMT.base_url (AsyncCKMT.self st))) ops ∧
    (forallb never_closes ops = true → stored_open st →
     Forall (λ ev, ev_closed ev = false) evs).
Proof.
  revert st. induction ops as [|op ops IH]; intros st.
  - exists []. rewrite app_nil_r. repeat split. by constructor.
  - cbn [run_ops fold_left]. fold (run_ops net ops (run_op net st op)).
    destruct (calls_step net st op) as (evs1 & Ht1 & Hr1 & Hc1).
    destruct (IH (run_op net st op)) as (evs2 & Ht2 & Hr2 & Hc2).
    rewrite run_op_base_url in Hr2.
    exists (evs1 ++ evs2)%list. split; [|split].
    + by rewrite Ht2, Ht1, app_assoc.
    + rewrite map_app, Hr1, Hr2. cbn.
      by destruct (request_of _ op).
    + intros Hops Hopen. cbn in Hops.
      apply andb_prop in Hops as [Hop Hops].
      destruct (Hc1 Hop Hopen) as [Hopen1 Hall1].
      apply Forall_app. split; [exact Hall1|by apply Hc2].
Qed.

Lemma session_request_calls_as_issued_witness :
  ∃ evs,
    w_trace
      (AsyncCKMT.heap
         (run_ops (answers (Raise aiohttp_refused))
            [op_request "GET" "/v1/search/stats" None None None; op_aenter;
             op_request "GET" "/v1/search/services" None None None]
            example_state)) = evs ∧
    map ev_request evs =
      [mk_request "GET" "https://example.com/v1/search/stats"
         None None None None;
       mk_request "GET" "https://example.com/v1/search/services"
         None None None None] ∧
    Forall (λ ev, ev_closed ev = false) evs.
Proof.
  destruct (session_request_calls_as_issued (answers (Raise aiohttp_refused))
              [op_request "GET" "/v1/search/stats" None None None; op_aenter;
               op_request "GET" "/v1/search/services" None None None]
              example_state) as (evs & Ht & Hr & Hc).
  exists evs. split; [exact Ht|]. split; [exact Hr|].
  apply Hc; [reflexivity|]. intros sid H. discriminate H.
Defined.

Lemma session_in_use_step (net : transport) (st : AsyncCKMT.state)
    (op : async_op) :
  is_request op = true →
  session_in_use (run_op net st op) = session_in_use st ∧
  (∀ sid, sid ≠ session_in_use st →
     w_sessions (AsyncCKMT.heap (run_op net st op)) !! sid =
     w_sessions (AsyncCKMT.heap st) !! sid) ∧
  ∃ evs, w_trace (AsyncCKMT.heap (run_op net st op)) =
           (w_trace (AsyncCKMT.heap st) ++ evs)%list ∧
         Forall (λ ev, ev_session ev = session_in_use st) evs.
Proof.
  intros Hop. rewrite run_op_cases. unfold session_in_use.
  destruct op; try discriminate Hop;
    destruct (AsyncCKMT.session (AsyncCKMT.self st)) as [sid|] eqn:E;
    cbn; rewrite ?E.
  - split; [done|]. split; [done|]. exists []. split; [|done].
    by rewrite app_nil_r.
  - split; [done|]. split.
    + intros sid Hne. by rewrite lookup_insert_ne.
    + exists []. split; [|done]. by rewrite app_nil_r.
  - split; [done|]. split; [done|].
    eexists. split; [reflexivity|]. by repeat constructor.
  - split; [done|]. split.
    + intros sid Hne. by rewrite lookup_insert_ne.
    + eexists. split; [reflexivity|]. by repeat constructor.
Qed.

(** Requests alone never create a second session: however many requests a
    client makes, all of them go through one session (the stored one, or
    the one the first request creates), and no other session of the store
    is created or changed. *)
Theorem requests_share_one_session (net : transport) (ops : list async_op)
    (st : AsyncCKMT.state) :
  forallb is_request ops = true →
  let st' := run_ops net ops st in
  (∃ evs, w_trace (AsyncCKMT.heap st') =
            (w_trace (AsyncCKMT.heap st) ++ evs)%list ∧
          Forall (λ ev, ev_session ev = session_in_use st) evs) ∧
  (∀ sid, sid ≠ session_in_use st →
     w_sessions (AsyncCKMT.heap st') !! sid =
     w_sessions (AsyncCKMT.heap st) !! sid).
Proof.
  cbv zeta. revert st. induction ops as [|op ops IH]; intros st Hops.
  - split; [exists []; by rewrite app_nil_r|done].
  - cbn in Hops. apply andb_prop in Hops as [Hop Hops].
    cbn [run_ops fold_left]. fold (run_ops net ops (run_op net st op)).
    destruct (session_in_use_step net st op Hop) as (Huse & Hframe & evs1 & Ht1 & Hall1).
    destruct (IH (run_op net st op) Hops) as [(evs2 & Ht2 & Hall2) Hframe2].
    rewrite Huse in Hall2, Hframe2. split.
    + exists (evs1 ++ evs2)%list. split.
      * by rewrite Ht2, Ht1, app_assoc.
      * by apply Forall_app.
    + intros sid Hne. by rewrite Hframe2, Hframe.
Qed.

Lemma requests_share_one_session_witness :
  let ops := [op_request "GET" "/v1/search/stats" None None None;
              op_request "GET" "/v1/search/services" None None None] in
  let st' := run_ops (answers (Raise aiohttp_total_timeout)) ops example_state in
  (∃ evs, w_trace (AsyncCKMT.heap st') =
            (w_trace (AsyncCKMT.heap example_state) ++ evs)%list ∧
          Forall (λ ev, ev_session ev = session_in_use example_state) evs) ∧
  (∀ sid, sid ≠ session_in_use example_state →
     w_sessions (AsyncCKMT.heap st') !! sid =
     w_sessions (AsyncCKMT.heap example_state) !! sid).
Proof.
  exact (requests_share_one_session (answers (Raise aiohttp_total_timeout))
           [op_request "GET" "/v1/search/stats" None None None;
            op_request "GET" "/v1/search/services" None None None]
           example_state eq_refl).
Defined.

(** ** The suspending client: closing and re-entering *)

Lemma close_twice (m : gmap nat session_obj) (sid : nat) :
  alter (λ s, mk_session (s_headers s) (s_timeout s) true) sid
    (alter (λ s, mk_session (s_headers s) (s_timeout s) true) sid m) =
  alter (λ s, mk_session (s_headers s) (s_timeout s) true) sid m.
Proof.
  apply map_eq. intros i. destruct (decide (sid = i)) as [->|Hne].
  - rewrite !lookup_alter_eq. by destruct (m !! i).
  - by rewrite !lookup_alter_ne.
Qed.

(** [close()] never raises and is idempotent: a second [close()] changes
    nothing.  On a client that stores no session it does nothing at all, and
    [__aexit__] does exactly what [close()] does.  Neither clears the
    stored reference. *)
Theorem close_is_idempotent (st : AsyncCKMT.state) :
  (AsyncCKMT.close st).1 = Return tt ∧
  AsyncCKMT.close (AsyncCKMT.close st).2 = (Return tt, (AsyncCKMT.close st).2) ∧
  AsyncCKMT.__aexit__ st = AsyncCKMT.close st ∧
  AsyncCKMT.session (AsyncCKMT.self (AsyncCKMT.close st).2) =
    AsyncCKMT.session (AsyncCKMT.self st) ∧
  (AsyncCKMT.session (AsyncCKMT.self st) = None →
   AsyncCKMT.close st = (Return tt, st)).
Proof.
  destruct (AsyncCKMT.session (AsyncCKMT.self st)) as [sid|] eqn:E.
  - rewrite (close_marks_closed _ _ E). cbn [fst snd].
    repeat split; try done.
    + rewrite (close_marks_closed _ sid) by exact E. cbn.
      by rewrite close_twice.
    + destruct st as [[k b t s] w]. cbn in E. subst s. reflexivity.
  - rewrite (close_without_session _ E). cbn [fst snd].
    repeat split; try done.
    + by apply close_without_session.
    + destruct st as [[k b t s] w]. cbn in E. subst s. reflexivity.
Qed.

Lemma close_is_idempotent_witness :
  AsyncCKMT.close example_state = (Return tt, example_state).
Proof.
  apply (proj2 (proj2 (proj2 (proj2 (close_is_idempotent example_state))))).
  reflexivity.
Defined.

Lemma leaked_session_step (net : transport) (st : AsyncCKMT.state)
    (op : async_op) (old : nat) :
  AsyncCKMT.session (AsyncCKMT.self st) ≠ Some old →
  is_open (AsyncCKMT.heap st) old →
  AsyncCKMT.session (AsyncCKMT.self (run_op net st op)) ≠ Some old ∧
  is_open (AsyncCKMT.heap (run_op net st op)) old.
Proof.
  intros Hne (s & Hs & Hopen). rewrite run_op_cases.
  pose proof (fresh_not_stored _ _ _ Hs) as Hfresh.
  unfold is_open.
  destruct op, (AsyncCKMT.session (AsyncCKMT.self st)) as [sid|] eqn:E; cbn;
    rewrite ?E, ?lookup_insert_ne by done;
    try (split; [congruence|by exists s]).
  all: split; [done|]; exists s;
    rewrite lookup_alter_ne by congruence; done.
Qed.

Lemma leaked_session_stays_open (net : transport) (ops : list async_op)
    (st : AsyncCKMT.state) (old : nat) :
  AsyncCKMT.session (AsyncCKMT.self st) ≠ Some old →
  is_open (AsyncCKMT.heap st) old →
  is_open (AsyncCKMT.heap (run_ops net ops st)) old.
Proof.
  revert st. induction ops as [|op ops IH]; intros st Hne Hopen; [done|].
  cbn [run_ops fold_left].
  destruct (leaked_session_step net st op old Hne Hopen) as [Hne' Hopen'].
  by apply IH.
Qed.

(** [__aenter__] on a client that already stores an open session (one that
    a request created, or an earlier [__aenter__]) installs a new session
    and drops the reference to the old one without closing it: no later
    operation of the client closes the old session. *)
Theorem reentering_leaks_session (net : transport) (st : AsyncCKMT.state)
    (old : nat) (ops : list async_op) :
  AsyncCKMT.session (AsyncCKMT.self st) = Some old →
  is_open (AsyncCKMT.heap st) old →
  let st1 := (AsyncCKMT.__aenter__ st).2 in
  (∃ new, AsyncCKMT.session (AsyncCKMT.self st1) = Some new ∧ new ≠ old ∧
          is_open (AsyncCKMT.heap st1) new) ∧
  is_open (AsyncCKMT.heap (run_ops net ops st1)) old.
Proof.
  intros E (s & Hs & Hopen). cbv zeta. rewrite aenter_installs. cbn [snd].
  pose proof (fresh_not_stored _ _ _ Hs) as Hfresh.
  split.
  - eexists. split; [reflexivity|]. split; [exact Hfresh|].
    eexists. cbn. by rewrite lookup_insert_eq.
  - apply leaked_session_stays_open.
    + cbn. congruence.
    + exists s. cbn. by rewrite lookup_insert_ne.
Qed.

Lemma reentering_leaks_session_witness :
  let st1 := (AsyncCKMT.__aenter__ example_state_in_use).2 in
  (∃ new, AsyncCKMT.session (AsyncCKMT.self st1) = Some new ∧ new ≠ 0%nat ∧
          is_open (AsyncCKMT.heap st1) new) ∧
  is_open
    (AsyncCKMT.heap
       (run_ops (answers (Return search_ok))
          [op_request "GET" "/v1/search/stats" None None None; op_aexit;
           op_close]
          st1)) 0%nat.
Proof.
  apply (reentering_leaks_session (answers (Return search_ok))
           example_state_in_use 0%nat
           [op_request "GET" "/v1/search/stats" None None None; op_aexit;
            op_close]).
  - by vm_compute.
  - eexists. split; by vm_compute.
Defined.

(** ** The suspending client: scoped acquisition *)

Lemma open_session_requests (net : transport) (ops : list async_op)
    (st : AsyncCKMT.state) (sid : nat) :
  forallb is_request ops = true →
  AsyncCKMT.session (AsyncCKMT.self st) = Some sid →
  is_open (AsyncCKMT.heap st) sid →
  let st' := run_ops net ops st in
  AsyncCKMT.session (AsyncCKMT.self st') = Some sid ∧
  w_sessions (AsyncCKMT.heap st') = w_sessions (AsyncCKMT.heap st) ∧
  ∃ evs, w_trace (AsyncCKMT.heap st') =
           (w_trace (AsyncCKMT.heap st) ++ evs)%list ∧
         Forall (λ ev, ev_session ev = sid ∧ ev_closed ev = false) evs.
Proof.
  cbv zeta. revert st.
  induction ops as [|op ops IH]; intros st Hops E Hopen.
  - repeat split; [done|]. exists []. by rewrite app_nil_r.
  - cbn in Hops. apply andb_prop in Hops as [Hop Hops].
    cbn [run_ops fold_left]. fold (run_ops net ops (run_op net st op)).
    destruct Hopen as (s & Hs & Hopen).
    assert (AsyncCKMT.session (AsyncCKMT.self (run_op net st op)) = Some sid ∧
            w_sessions (AsyncCKMT.heap (run_op net st op)) =
              w_sessions (AsyncCKMT.heap st) ∧
            ∃ evs, w_trace (AsyncCKMT.heap (run_op net st op)) =
                     (w_trace (AsyncCKMT.heap st) ++ evs)%list ∧
                   Forall (λ ev, ev_session ev = sid ∧ ev_closed ev = false) evs)
      as (E1 & Hw1 & evs1 & Ht1 & Hall1).
    { rewrite run_op_cases. destruct op; try discriminate Hop; rewrite E; cbn.
      - repeat split; [done|]. exists []. by rewrite app_nil_r.
      - repeat split; [done|]. eexists. split; [reflexivity|].
        unfold deref. rewrite Hs. cbn. by repeat constructor. }
    destruct (IH (run_op net st op) Hops E1) as (E2 & Hw2 & evs2 & Ht2 & Hall2).
    { exists s. by rewrite Hw1. }
    split; [done|]. split; [congruence|].
    exists (evs1 ++ evs2)%list. split.
    + by rewrite Ht2, Ht1, app_assoc.
    + by apply Forall_app.
Qed.

(** A scoped block, [async with client:], whose body makes requests: every
    request of the body goes through the session that [__aenter__] created,
    which is open at that time; when the block is left that session is
    closed, and it stays stored. *)
Theorem scoped_block_closes_session (net : transport) (ops : list async_op)
    (st : AsyncCKMT.state) :
  forallb is_request ops = true →
  let sid := fresh (dom (w_sessions (AsyncCKMT.heap st))) in
  let st' := run_ops net (op_aenter :: ops ++ [op_aexit]) st in
  w_sessions (AsyncCKMT.heap st) !! sid = None ∧
  AsyncCKMT.session (AsyncCKMT.self st') = Some sid ∧
  is_closed (AsyncCKMT.heap st') sid ∧
  ∃ evs, w_trace (AsyncCKMT.heap st') =
           (w_trace (AsyncCKMT.heap st) ++ evs)%list ∧
         Forall (λ ev, ev_session ev = sid ∧ ev_closed ev = false) evs.
Proof.
  intros Hops. cbv zeta. split; [apply fresh_session_unused|].
  unfold run_ops. cbn [fold_left]. rewrite fold_left_app. cbn [fold_left].
  fold (run_ops net ops (run_op net st op_aenter)).
  set (sid := fresh (dom (w_sessions (AsyncCKMT.heap st)))).
  assert (AsyncCKMT.session (AsyncCKMT.self (run_op net st op_aenter)) = Some sid ∧
          (∃ s, w_sessions (AsyncCKMT.heap (run_op net st op_aenter)) !! sid =
                  Some s ∧ s_closed s = false) ∧
          w_trace (AsyncCKMT.heap (run_op net st op_aenter)) =
            w_trace (AsyncCKMT.heap st)) as (E1 & Hopen1 & Ht1).
  { rewrite run_op_cases. cbn. split; [done|]. split; [|done].
    eexists. by rewrite lookup_insert_eq. }
  remember (run_op net st op_aenter) as st1 eqn:Hst1. clear Hst1.
  destruct (open_session_requests net ops st1 sid Hops E1 Hopen1)
    as (E & Hw & evs & Ht & Hall).
  remember (run_ops net ops st1) as st2 eqn:Hst2. clear Hst2.
  rewrite (run_op_cases net st2 op_aexit), E.
  unfold after_close, is_closed.
  cbn [AsyncCKMT.heap AsyncCKMT.self w_sessions w_trace].
  split; [exact E|]. split.
  - destruct Hopen1 as (s & Hs & _).
    eexists. rewrite lookup_alter_eq, Hw, Hs. done.
  - exists evs. split; [|done]. by rewrite Ht, Ht1.
Qed.

Lemma scoped_block_closes_session_witness :
  let ops := [op_request "GET" "/v1/search/stats" None None None;
              op_request "GET" "/v1/search/services" None None None] in
  let sid := fresh (dom (w_sessions (AsyncCKMT.heap example_state))) in
  let st' := run_ops (answers (Raise aiohttp_refused))
               (op_aenter :: ops ++ [op_aexit]) example_state in
  w_sessions (AsyncCKMT.heap example_state) !! sid = None ∧
  AsyncCKMT.session (AsyncCKMT.self st') = Some sid ∧
  is_closed (AsyncCKMT.heap st') sid ∧
  ∃ evs, w_trace (AsyncCKMT.heap st') =
           (w_trace (AsyncCKMT.heap example_state) ++ evs)%list ∧
         Forall (λ ev, ev_session ev = sid ∧ ev_closed ev = false) evs.
Proof.
  exact (scoped_block_closes_session (answers (Raise aiohttp_refused))
           [op_request "GET" "/v1/search/stats" None None None;
            op_request "GET" "/v1/search/services" None None None]
           example_state eq_refl).
Defined.

Lemma try_finally_close {A} (body : M AsyncCKMT.state A)
    (st : AsyncCKMT.state) :
  try_finally body AsyncCKMT.close st =
    ((body st).1, (AsyncCKMT.close (body st).2).2) ∧
  try_finally body AsyncCKMT.__aexit__ st =
    ((body st).1, (AsyncCKMT.close (body st).2).2).
Proof.
  unfold try_finally. destruct (body st) as [r st']. cbn [fst snd].
  destruct (close_is_idempotent st') as (H1 & _ & H2 & _).
  rewrite H2. destruct (AsyncCKMT.close st') as [[[]|e] st''].
  - cbn. split; reflexivity.
  - cbn in H1. discriminate H1.
Qed.

(** [async with client:] around one request: the block ends the way the
    request ends (what it returned, or the exception it raised, raised
    again), the request went through the fresh session while it was open,
    and the session is closed afterwards in either case. *)
Theorem scoped_request_outcome (net : transport) (st : AsyncCKMT.state)
    (method endpoint : string) (params : option pydict)
    (json : option json_value) (headers : option (list (string * string))) :
  let sid := fresh (dom (w_sessions (AsyncCKMT.heap st))) in
  let run :=
    async_with (AsyncCKMT._request net method endpoint params json headers) st in
  run.1 =
    (AsyncCKMT._request net method endpoint params json headers
       (AsyncCKMT.__aenter__ st).2).1 ∧
  run.2 =
    run_ops net
      [op_aenter; op_request method endpoint params json headers; op_aexit] st ∧
  is_closed (AsyncCKMT.heap run.2) sid ∧
  w_trace (AsyncCKMT.heap run.2) =
    (w_trace (AsyncCKMT.heap st) ++
     [Sent sid false
        (mk_request method (AsyncCKMT.base_url (AsyncCKMT.self st) ++ endpoint)
           params json headers None)])%list.
Proof.
  cbv zeta.
  assert (async_with (AsyncCKMT._request net method endpoint params json headers) st =
          ((AsyncCKMT._request net method endpoint params json headers
              (AsyncCKMT.__aenter__ st).2).1,
           run_ops net
             [op_aenter; op_request method endpoint params json headers;
              op_aexit] st)) as ->.
  { unfold async_with, bind. cbn [run_ops fold_left run_op].
    pose proof (aenter_installs st) as Ha. cbv zeta in Ha.
    destruct (AsyncCKMT.__aenter__ st) as [r st1].
    assert (r = Return tt) as -> by congruence. clear Ha. cbn [snd].
    rewrite (proj2 (try_finally_close _ _)).
    by destruct (close_is_idempotent
                   (AsyncCKMT._request net method endpoint params json
                      headers st1).2) as (_ & _ & -> & _). }
  cbn [fst snd]. split; [done|]. split; [done|].
  cbn [run_ops fold_left]. rewrite !run_op_cases. cbn.
  unfold deref. cbn. rewrite !lookup_insert_eq. cbn.
  split; [|done]. eexists. cbn. rewrite lookup_alter_eq, lookup_insert_eq. done.
Qed.

(** [examples/async_usage.py], [manual_session_example]: the script sends
    one request, [GET /v1/search] with [query=nginx], [page=1], [size=10],
    through a session it creates for it, and the [finally] clause closes
    that session whether the search returned or raised; what the search
    gave is what the script ends with. *)
Theorem manual_example_closes_session (env : environ) (net : transport)
    (w : world) :
  let base :=
    rstrip slash (getenv_default env "CKMT_BASE_URL" default_base_url) in
  let client := AsyncCKMT.mk_client "your_api_key_here" base 30 None in
  let params :=
    Some [("query", PyStr "nginx"); ("page", PyInt 1); ("size", PyInt 10)] in
  let sid := fresh (dom (w_sessions w)) in
  let run := manual_session_example env net w in
  run.1 =
    (AsyncCKMT._request net "GET" "/v1/search" params None None
       (AsyncCKMT.mk_state client w)).1 ∧
  w_trace run.2 =
    (w_trace w ++
     [Sent sid false
        (mk_request "GET" (base ++ "/v1/search") params None None None)])%list ∧
  w_sessions w !! sid = None ∧
  is_closed run.2 sid.
Proof.
  cbv zeta. unfold manual_session_example.
  destruct (init_accepts env (Some "your_api_key_here") None 30 w
              "your_api_key_here") as [_ Ha]; [done|done|].
  cbv zeta in Ha. rewrite Ha.
  rewrite (proj1 (try_finally_close _ _)). cbn [fst snd AsyncCKMT.heap].
  split; [reflexivity|].
  set (st0 := AsyncCKMT.mk_state _ w).
  change (AsyncCKMT.search net (PyStr "nginx") PyNone PyNone PyNone PyNone
            PyNone PyNone PyNone PyNone PyNone PyNone PyNone default_page
            default_size st0).2
    with (run_op net st0
            (op_request "GET" "/v1/search"
               (Some [("query", PyStr "nginx"); ("page", PyInt 1);
                      ("size", PyInt 10)]) None None)).
  change (AsyncCKMT.close ?st).2 with (run_op net st op_close).
  rewrite !run_op_cases. cbn. unfold deref. cbn. rewrite lookup_insert_eq.
  split; [done|]. split; [apply fresh_session_unused|].
  eexists. cbn. rewrite lookup_alter_eq, lookup_insert_eq. done.
Qed.

(** ** The Endpoint Facade: order of the parameters *)

Lemma keys_drop_None_sublist (d : pydict) :
  sublist (keys (drop_None d)) (keys d).
Proof.
  assert (sublist (drop_None d) d) as Hsub.
  { unfold drop_None. apply sublist_filter. }
  induction Hsub as [|x l1 l2 _ IH|x l1 l2 _ IH]; cbn.
  - constructor.
  - by apply sublist_skip.
  - by apply sublist_cons.
Qed.

(** The request each of [search], [count], [facets] and [ports] sends, in
    either mode, has its query parameters in the order of the method's
    signature: the keys sent are a sublist of the signature's, never
    reordered, and no key is sent twice. *)
Theorem params_keep_order :
  let search_order :=
    ["query"; "port"; "service"; "product"; "version"; "country"; "asn";
     "os"; "vuln"; "http_title"; "http_status"; "technology"; "page";
     "size"] in
  let async_trace := λ st, w_trace (AsyncCKMT.heap st) in
  (∀ net self query port service product version country asn os vuln
     http_title http_status technology page size,
     sends_keys_in_order w_trace
       (CKMT.search net self query port service product version country asn
          os vuln http_title http_status technology page size)
       search_order) ∧
  (∀ net self query port country,
     sends_keys_in_order w_trace (CKMT.count net self query port country)
       ["query"; "port"; "country"]) ∧
  (∀ net self query facets,
     sends_keys_in_order w_trace (CKMT.facets net self query facets)
       ["query"; "facets"]) ∧
  (∀ net self query size,
     sends_keys_in_order w_trace (CKMT.ports net self query size)
       ["query"; "size"]) ∧
  (∀ net query port service product version country asn os vuln
     http_title http_status technology page size,
     sends_keys_in_order async_trace
       (AsyncCKMT.search net query port service product version country asn
          os vuln http_title http_status technology page size)
       search_order) ∧
  (∀ net query port country,
     sends_keys_in_order async_trace (AsyncCKMT.count net query port country)
       ["query"; "port"; "country"]) ∧
  (∀ net query facets,
     sends_keys_in_order async_trace (AsyncCKMT.facets net query facets)
       ["query"; "facets"]) ∧
  (∀ net query size,
     sends_keys_in_order async_trace (AsyncCKMT.ports net query size)
       ["query"; "size"]).
Proof.
  cbv zeta.
  repeat match goal with |- _ ∧ _ => split end; intros; eexists;
    (split; [first [apply sync_request_sends|apply async_request_sends]|]).
  - split.
    + apply (keys_drop_None_sublist
               (CKMT.search_dict query port service product version country
                  asn os vuln http_title http_status technology page size)).
    + apply NoDup_keys_drop_None, search_dict_NoDup.
  - split; [apply (keys_drop_None_sublist (CKMT.count_dict query port country))|].
    apply NoDup_keys_drop_None, (small_dicts_NoDup query port country).
  - split; [apply (keys_drop_None_sublist (CKMT.facets_dict query facets))|].
    apply NoDup_keys_drop_None, (small_dicts_NoDup query facets PyNone).
  - split; [apply (keys_drop_None_sublist (CKMT.ports_dict query size))|].
    apply NoDup_keys_drop_None, (small_dicts_NoDup query size PyNone).
  - split.
    + apply (keys_drop_None_sublist
               (CKMT.search_dict query port service product version country
                  asn os vuln http_title http_status technology page size)).
    + apply NoDup_keys_drop_None, search_dict_NoDup.
  - split; [apply (keys_drop_None_sublist (CKMT.count_dict query port country))|].
    apply NoDup_keys_drop_None, (small_dicts_NoDup query port country).
  - split; [apply (keys_drop_None_sublist (CKMT.facets_dict query facets))|].
    apply NoDup_keys_drop_None, (small_dicts_NoDup query facets PyNone).
  - split; [apply (keys_drop_None_sublist (CKMT.ports_dict query size))|].
    apply NoDup_keys_drop_None, (small_dicts_NoDup query size PyNone).
Qed.

(** ** [examples/cli_tool.py] *)

Lemma every_class_is_Exception (c : exc_class) :
  issubclass c Exception = true.
Proof. destruct c; reflexivity. Qed.

Lemma cli_dispatch_is_request (net : transport) (c : CKMT.client)
    (cmd : cli_tool.subcommand) :
  ∃ endpoint params,
    cli_tool.dispatch net c cmd =
    CKMT._request net c "GET" endpoint params None None.
Proof. destruct cmd; do 2 eexists; reflexivity. Qed.

Lemma cli_main_unfold (env : environ) (net : transport)
    (args : cli_tool.namespace) (cmd : cli_tool.subcommand) (w : world) :
  cli_tool.command args = Some cmd →
  (truthy (py_or (cli_tool.api_key args) (getenv env "CKMT_API_KEY")) = false ∧
   cli_tool.main env net args w =
     ([cli_tool.Stderr ("Unexpected error: " ++ api_key_required)],
      cli_tool.Exit 1, w)) ∨
  (∃ c w1 endpoint params,
     CKMT.__init__ env (cli_tool.api_key args) None 30 w = (Return c, w1) ∧
     w_trace w1 = w_trace w ∧
     cli_tool.dispatch net c cmd =
       CKMT._request net c "GET" endpoint params None None ∧
     cli_tool.main env net args w =
       match CKMT._request net c "GET" endpoint params None None w1 with
       | (Return result, w') => ([cli_tool.Stdout result], cli_tool.Returned, w')
       | (Raise e, w') =>
           if isinstance e CKMTError then
             ([cli_tool.Stderr ("Error: " ++ exc_str e)], cli_tool.Exit 1, w')
           else
             ([cli_tool.Stderr ("Unexpected error: " ++ exc_str e)],
              cli_tool.Exit 1, w')
       end).
Proof.
  intros Hcmd. unfold cli_tool.main. rewrite Hcmd. unfold bind.
  destruct (init_cases env (cli_tool.api_key args) None 30 w)
    as [Hno|(key & Hk & Hne)].
  - left. split; [done|].
    destruct (init_rejects env (cli_tool.api_key args) None 30 w Hno) as [-> _].
    reflexivity.
  - right.
    destruct (init_accepts env (cli_tool.api_key args) None 30 w key Hk Hne)
      as [Hs _].
    cbv zeta in Hs. rewrite Hs.
    destruct (cli_dispatch_is_request net
                (CKMT.mk_client key
                   (rstrip slash
                      (py_or_str None
                         (getenv_default env "CKMT_BASE_URL" default_base_url)))
                   30 (fresh (dom (w_sessions w)))) cmd)
      as (endpoint & params & Hd).
    do 4 eexists. split; [reflexivity|]. split; [reflexivity|].
    split; [exact Hd|]. rewrite Hd.
    destruct (CKMT._request _ _ _ _ _ _ _ _) as [[v|e] w']; [reflexivity|].
    destruct (isinstance e CKMTError); [reflexivity|].
    unfold isinstance.
    by rewrite every_class_is_Exception.
Qed.


(** Without credentials (no usable [--api-key] and no [CKMT_API_KEY]) the
    tool reports the constructor's [ValueError] through its second handler,
    as an "Unexpected error", exits with status 1 and sends nothing. *)
Theorem cli_missing_credentials (env : environ) (net : transport)
    (key : option string) (cmd : cli_tool.subcommand) (w : world) :
  truthy (py_or key (getenv env "CKMT_API_KEY")) = false →
  cli_tool.main env net (cli_tool.mk_namespace key (Some cmd)) w =
    ([cli_tool.Stderr
        "Unexpected error: API key is required. Set CKMT_API_KEY or pass api_key parameter."],
     cli_tool.Exit 1, w).
Proof.
  intros Hno.
  destruct (cli_main_unfold env net (cli_tool.mk_namespace key (Some cmd))
              cmd w eq_refl) as [[_ ->]|(c & w1 & _ & _ & Hs & _)].
  - reflexivity.
  - destruct (init_rejects env key None 30 w Hno) as [Hr _].
    cbn in Hs. congruence.
Qed.

Lemma cli_missing_credentials_witness :
  cli_tool.main env_without_key (answers (Return search_ok))
    (cli_tool.mk_namespace (Some "") (Some cli_tool.cmd_stats)) empty_world =
    ([cli_tool.Stderr
        "Unexpected error: API key is required. Set CKMT_API_KEY or pass api_key parameter."],
     cli_tool.Exit 1, empty_world).
Proof.
  apply cli_missing_credentials. reflexivity.
Defined.

(** With credentials, what the tool prints follows the response: a status
    of 400 or more gives ["Error: "] and the message of the Classified
    Error on standard error with exit status 1; a status below 400 whose
    body decodes gives the decoded body on standard output.  A failure of
    the transport gives ["Error: Request failed: ..."]. *)
Theorem cli_reports_outcome (env : environ) (key : option string)
    (cmd : cli_tool.subcommand) (w : world) (x : result http_response) :
  truthy (py_or key (getenv env "CKMT_API_KEY")) = true →
  let run :=
    cli_tool.main env (answers x) (cli_tool.mk_namespace key (Some cmd)) w in
  let failed m :=
    run.1 = ([cli_tool.Stderr ("Error: " ++ m)], cli_tool.Exit 1) in
  (∀ status body js, x = Return (mk_response status body js) →
     (status = 401 → failed "Invalid API key") ∧
     (status = 404 → failed "Resource not found") ∧
     (status = 429 → failed "Rate limit exceeded") ∧
     (status = 422 → failed "Validation error") ∧
     (400 ≤ status → status ≠ 401 → status ≠ 404 → status ≠ 429 →
      status ≠ 422 → failed ("API error: " ++ body)) ∧
     (status < 400 → ∀ v, js = Return v →
      run.1 = ([cli_tool.Stdout v], cli_tool.Returned))) ∧
  (∀ e, x = Raise e → isinstance e requests_RequestException = true →
     failed ("Request failed: " ++ exc_str e)).
Proof.
  intros Hkey. cbv zeta.
  destruct (cli_main_unfold env (answers x)
              (cli_tool.mk_namespace key (Some cmd)) cmd w eq_refl)
    as [[Hno _]|(c & w1 & endpoint & params & _ & _ & _ & ->)].
  { cbn in Hno. congruence. }
  rewrite (surjective_pairing (CKMT._request _ _ _ _ _ _ _ _)).
  split.
  - intros status body js ->. rewrite sync_request_response.
    repeat split; intros; subst; repeat case_decide; try lia; try reflexivity.
  - intros e -> He. rewrite sync_request_failure, He. reflexivity.
Qed.

Lemma cli_reports_outcome_witness :
  (cli_tool.main env_with_key (answers (Return rate_limited))
     (cli_tool.mk_namespace None (Some (cli_tool.cmd_host "8.8.8.8")))
     empty_world).1 =
    ([cli_tool.Stderr "Error: Rate limit exceeded"], cli_tool.Exit 1).
Proof.
  pose proof (cli_reports_outcome env_with_key None
                (cli_tool.cmd_host "8.8.8.8") empty_world
                (Return rate_limited) eq_refl) as [H _].
  destruct (H 429 "rate limited" (Raise aiohttp_decode_error) eq_refl)
    as (_ & _ & H429 & _).
  exact (H429 eq_refl).
Defined.

(** The [search] sub-command forwards six of the fourteen filters of
    [CKMT.search]: [query], [port], [service], [country], [page] and
    [size], each only when it is set; [product], [version], [asn], [os],
    [vuln], [http_title], [http_status] and [technology] are never sent. *)
Theorem cli_search_forwards_six_filters (net : transport) (c : CKMT.client)
    (query port service country page size : pyval) (w : world) :
  requests_sent
    (cli_tool.dispatch net c
       (cli_tool.cmd_search query port service country page size) w).2 =
  (requests_sent w ++
   [mk_request "GET" (CKMT.base_url c ++ "/v1/search")
      (Some (drop_None [("query", query); ("port", port);
                        ("service", service); ("country", country);
                        ("page", page); ("size", size)]))
      None None (Some (CKMT.timeout c))])%list.
Proof.
  unfold cli_tool.dispatch, CKMT.search. rewrite sync_request_sent.
  reflexivity.
Qed.
